(** * StudyTimer: the pomodoro state machine of the study dashboard

    A shallow embedding of the [StudyTimer] React component (the page behind
    the [/timer] route): its hook state, its event handlers, the one-second
    interval callback and the guards the rendered controls put on the
    handlers.

    Conventions of the embedding.
    - JavaScript numbers are modelled by [Z]: every number the component
      handles is an integer (minutes, seconds, a session counter).
    - A handler is a closure over the values of the render it was created
      in.  It reads the hook values of that render (the snapshot [st]) and
      queues state updates; the next render sees the updates applied in the
      order they were queued.  A handler is therefore a function from the
      snapshot to an action on the pending next state.
    - The handlers come first, each as the source writes it from its first
      line to its last.  The page that runs them comes after: there the
      interval keeps the closure of the render it was installed in, an
      awaited insert and an unawaited select are answered by events of
      their own, and the handler stops at its [await] until then.
    - Calls that leave the component (the session store, the console, the
      notification sink, toasts, animations) are recorded in a log.
    - The progress ring drawn from [timeLeft] is presentation only and has
      no counterpart here. *)

From Stdlib Require Import ZArith List Ascii String Bool Lia.
From Stdlib Require DecimalString.
Import ListNotations.
Local Open Scope Z_scope.

(** ** Data *)

(** [useState<'study' | 'break' | 'longBreak'>]. *)
Inductive SessionType : Type := study | break | longBreak.

Definition SessionType_eqb (a b : SessionType) : bool :=
  match a, b with
  | study, study | break, break | longBreak, longBreak => true
  | _, _ => false
  end.

(** [interface TimerSettings]. *)
Record TimerSettings : Type := mkSettings {
  studyDuration : Z;
  breakDuration : Z;
  longBreakDuration : Z;
  sessionsUntilLongBreak : Z
}.

(** The signed-in user handed out by [useAuth()]; only its [id] is used. *)
Record User : Type := mkUser { id : string }.

(** The object passed to [insert]: [{ ...sessionData, user_id: user.id }],
    with [sessionData : SessionData].  An absent [subject] ([undefined]) is
    [None]. *)
Record SessionData : Type := mkSessionData {
  sd_duration : Z;
  sd_type : string;
  sd_subject : option string;
  sd_user_id : string
}.

(** A row of [study_sessions] as the page reads it back ([any] in the
    source): the fields the list of recent sessions displays. *)
Record SessionRow : Type := mkSessionRow {
  row_id : string;
  row_subject : option string;
  row_timestamp : string;
  row_duration : Z
}.

(** The hook values of one render of the component, with the [user] that
    [useAuth()] returned to it. *)
Record State : Type := mkState {
  user : option User;
  isRunning : bool;
  isPaused : bool;
  timeLeft : Z;
  currentSession : SessionType;
  sessionCount : Z;
  subject : string;
  settings : TimerSettings;
  recentSessions : list SessionRow
}.

(** What the awaited [insert] resolves to: [{ error }] with the error unset
    or set. *)
Inductive InsertResult : Type :=
| InsertOk
| InsertError (message : string).

(** What the awaited [select] resolves to: [{ data, error }]. *)
Inductive FetchResult : Type :=
| FetchOk (data : option (list SessionRow))
| FetchError (message : string).

(** What a run of [handleSessionComplete] meets outside the component:
    the answer to its insert and [Notification.permission === 'granted']. *)
Record World : Type := mkWorld {
  insertResult : InsertResult;
  notificationGranted : bool
}.

(** Calls that leave the component. *)
Inductive Effect : Type :=
| Insert (row : SessionData)
| SelectRecent (user_id : string)
| ConsoleError (what : string) (message : string)
| Notify (title body : string)
| Toast (title description : string)
| AnimateStart
| AnimateComplete.

(** ** Queued state updates *)

Record Pending : Type := mkPending { next : State; log : list Effect }.

Definition Act : Type := Pending -> Pending.

Definition skip : Act := fun p => p.

Definition andThen (a b : Act) : Act := fun p => b (a p).

Notation "a ;; b" := (andThen a b) (at level 61, right associativity).

Definition update (f : State -> State) : Act :=
  fun p => mkPending (f (next p)) (log p).

Definition emit (e : Effect) : Act :=
  fun p => mkPending (next p) (log p ++ [e]).

Definition setIsRunning (b : bool) : Act :=
  update (fun s =>
    mkState (user s) b (isPaused s) (timeLeft s) (currentSession s)
      (sessionCount s) (subject s) (settings s) (recentSessions s)).

Definition setIsPaused (b : bool) : Act :=
  update (fun s =>
    mkState (user s) (isRunning s) b (timeLeft s) (currentSession s)
      (sessionCount s) (subject s) (settings s) (recentSessions s)).

Definition setTimeLeft (t : Z) : Act :=
  update (fun s =>
    mkState (user s) (isRunning s) (isPaused s) t (currentSession s)
      (sessionCount s) (subject s) (settings s) (recentSessions s)).

Definition setCurrentSession (c : SessionType) : Act :=
  update (fun s =>
    mkState (user s) (isRunning s) (isPaused s) (timeLeft s) c
      (sessionCount s) (subject s) (settings s) (recentSessions s)).

Definition setSessionCount (n : Z) : Act :=
  update (fun s =>
    mkState (user s) (isRunning s) (isPaused s) (timeLeft s)
      (currentSession s) n (subject s) (settings s) (recentSessions s)).

Definition setSubject (x : string) : Act :=
  update (fun s =>
    mkState (user s) (isRunning s) (isPaused s) (timeLeft s)
      (currentSession s) (sessionCount s) x (settings s)
      (recentSessions s)).

Definition setSettings (x : TimerSettings) : Act :=
  update (fun s =>
    mkState (user s) (isRunning s) (isPaused s) (timeLeft s)
      (currentSession s) (sessionCount s) (subject s) x (recentSessions s)).

Definition setRecentSessions (rows : list SessionRow) : Act :=
  update (fun s =>
    mkState (user s) (isRunning s) (isPaused s) (timeLeft s)
      (currentSession s) (sessionCount s) (subject s) (settings s) rows).

(** A handler is run against the render it closes over; [commit] is the
    state of the following render and [effects] what left the component. *)
Definition Handler : Type := State -> Act.

Definition commit (h : Handler) (st : State) : State :=
  next (h st (mkPending st [])).

Definition effects (h : Handler) (st : State) : list Effect :=
  log (h st (mkPending st [])).

(** ** JavaScript operators *)

(** [a % b] on integers: the remainder has the sign of the dividend, and
    [a % 0] is [NaN] ([None]). *)
Definition js_rem (a b : Z) : option Z :=
  if b =? 0 then None else Some (Z.rem a b).

(** [x === 0] for the result of [%]: [NaN === 0] is false. *)
Definition js_is_zero (x : option Z) : bool :=
  match x with
  | Some v => v =? 0
  | None => false
  end.

(** [subject || undefined]: the empty string is falsy. *)
Definition orUndefined (x : string) : option string :=
  match x with
  | EmptyString => None
  | _ => Some x
  end.

(** ** The component *)

(** The initial values of the hooks, for the user [ProtectedRoute] lets
    through. *)
Definition defaultSettings : TimerSettings := mkSettings 25 5 15 4.

Definition initialState (u : User) : State :=
  mkState (Some u) false false (25 * 60) study 0 EmptyString defaultSettings [].

(** [fetchRecentSessions] up to its [await]: the select for the ten latest
    rows of the user is sent.  No caller awaits the function, so nothing
    else of it happens within the caller. *)
Definition fetchRecentSessions : Handler := fun st =>
  match user st with
  | None => skip
  | Some u => emit (SelectRecent (id u))
  end.

(** [fetchRecentSessions] after its [await], once the select is answered:
    a logged error, or the rows ([data || []]). *)
Definition fetchAnswered (r : FetchResult) : Act :=
  match r with
  | FetchError e => emit (ConsoleError "Error fetching sessions:" e)
  | FetchOk data =>
      setRecentSessions (match data with Some rows => rows | None => [] end)
  end.

Definition getCurrentSessionDuration (st : State) : Z :=
  match currentSession st with
  | study => studyDuration (settings st)
  | break => breakDuration (settings st)
  | longBreak => longBreakDuration (settings st)
  end.

Definition handleStart : Handler := fun _ =>
  setIsRunning true ;;
  setIsPaused false ;;
  emit AnimateStart.

Definition handlePause : Handler := fun st =>
  setIsPaused (negb (isPaused st)).

Definition handleStop : Handler := fun st =>
  setIsRunning false ;;
  setIsPaused false ;;
  setTimeLeft (getCurrentSessionDuration st * 60).

Definition handleReset : Handler := fun st =>
  setIsRunning false ;;
  setIsPaused false ;;
  setTimeLeft (getCurrentSessionDuration st * 60) ;;
  setCurrentSession study ;;
  setSessionCount 0.

(** The text of the notification and of the toast. *)
Definition finishedMessage (c : SessionType) : string :=
  match c with
  | study => "Study session finished."
  | _ => "Break session finished."
  end.

(** [handleSessionComplete], from its first line to its last, for the
    answer [w] gives to the awaited insert.  [beforeAwait] and [afterAwait]
    below are the two parts the [await] cuts it into. *)
Definition handleSessionComplete (w : World) : Handler :=
  fun st =>
  setIsRunning false ;;
  setIsPaused false ;;
  match currentSession st, user st with
  | study, Some u =>
      emit (Insert (mkSessionData (studyDuration (settings st)) "study"
                      (orUndefined (subject st)) (id u))) ;;
      match insertResult w with
      | InsertError e => emit (ConsoleError "Error saving session:" e)
      | InsertOk => fetchRecentSessions st
      end
  | _, _ => skip
  end ;;
  match currentSession st with
  | study =>
      let newSessionCount := sessionCount st + 1 in
      setSessionCount newSessionCount ;;
      if js_is_zero
           (js_rem newSessionCount (sessionsUntilLongBreak (settings st)))
      then setCurrentSession longBreak ;;
           setTimeLeft (longBreakDuration (settings st) * 60)
      else setCurrentSession break ;;
           setTimeLeft (breakDuration (settings st) * 60)
  | _ =>
      setCurrentSession study ;;
      setTimeLeft (studyDuration (settings st) * 60)
  end ;;
  (if notificationGranted w
   then emit (Notify "Timer Complete!" (finishedMessage (currentSession st)))
   else skip) ;;
  emit (Toast "Session Complete!" (finishedMessage (currentSession st))) ;;
  emit AnimateComplete.

(** The function given to [setTimeLeft] by the interval callback: the value
    it returns, and whether it called [handleSessionComplete]. *)
Definition tickUpdater (prev : Z) : Z * bool :=
  if prev <=? 1 then (0, true) else (prev - 1, false).

(** One firing of the interval together with the whole of the completion
    it may start, for the closure [st] the callback holds: the updater
    reads the pending countdown, its value is stored, and
    [handleSessionComplete] of the closure runs to its last line.  This is
    what a firing comes to when the updater runs while rendering and the
    insert is answered before anything else happens; [fire] below is the
    firing as the page runs it. *)
Definition handleTick (w : World) : Handler :=
  fun st p =>
  let (t, completed) := tickUpdater (timeLeft (next p)) in
  if completed
  then (setTimeLeft t ;; handleSessionComplete w st) p
  else setTimeLeft t p.

(** The [onValueChange] handlers of the three selects, applied to
    [parseInt(value)]. *)
Definition changeStudyDuration (v : Z) : Handler := fun st =>
  setSettings (mkSettings v (breakDuration (settings st))
                 (longBreakDuration (settings st))
                 (sessionsUntilLongBreak (settings st))).

Definition changeBreakDuration (v : Z) : Handler := fun st =>
  setSettings (mkSettings (studyDuration (settings st)) v
                 (longBreakDuration (settings st))
                 (sessionsUntilLongBreak (settings st))).

Definition changeLongBreakDuration (v : Z) : Handler := fun st =>
  setSettings (mkSettings (studyDuration (settings st))
                 (breakDuration (settings st)) v
                 (sessionsUntilLongBreak (settings st))).

(** The subject input's [onChange]. *)
Definition changeSubject (x : string) : Handler := fun _ => setSubject x.

(** The values of the [SelectItem]s, as [parseInt] reads them. *)
Definition studyOptions : list Z := [15; 25; 30; 45; 60].
Definition breakOptions : list Z := [5; 10; 15].
Definition longBreakOptions : list Z := [15; 20; 30].

Definition offered (v : Z) (options : list Z) : bool :=
  existsb (Z.eqb v) options.

(** ** What the rendered page lets happen *)

Inductive Event : Type :=
| Start
| PauseResume
| Stop
| Reset
| Tick (w : World)
| SubjectInput (x : string)
| SelectStudy (v : Z)
| SelectBreak (v : Z)
| SelectLongBreak (v : Z).

(** The guards of the JSX and of the interval effect: the Start button is
    rendered while stopped and the Pause/Resume button while running; Stop
    and Reset are always there; the subject input is rendered in the study
    phase and disabled while running; the selects are disabled while
    running; the interval exists while running and not paused. *)
Definition enabled (e : Event) (st : State) : bool :=
  match e with
  | Start => negb (isRunning st)
  | PauseResume => isRunning st
  | Stop | Reset => true
  | Tick _ => isRunning st && negb (isPaused st)
  | SubjectInput _ =>
      SessionType_eqb (currentSession st) study && negb (isRunning st)
  | SelectStudy v => negb (isRunning st) && offered v studyOptions
  | SelectBreak v => negb (isRunning st) && offered v breakOptions
  | SelectLongBreak v => negb (isRunning st) && offered v longBreakOptions
  end.

Definition handler (e : Event) : Handler :=
  match e with
  | Start => handleStart
  | PauseResume => handlePause
  | Stop => handleStop
  | Reset => handleReset
  | Tick w => handleTick w
  | SubjectInput x => changeSubject x
  | SelectStudy v => changeStudyDuration v
  | SelectBreak v => changeBreakDuration v
  | SelectLongBreak v => changeLongBreakDuration v
  end.

(** The render that follows an event when its handler runs from its first
    line to its last against the render [st]: for a tick, the interval's
    closure is [st] itself and the insert is answered at once.  The page
    below drops both assumptions. *)
Definition step (e : Event) (st : State) : State := commit (handler e) st.

(** The first render of the page: [ProtectedRoute] renders it for a
    signed-in user only. *)
Definition mounted (u : User) : State := initialState u.

Fixpoint run (es : list Event) (st : State) : State :=
  match es with
  | [] => st
  | e :: es' => run es' (step e st)
  end.

(** Whether every event of a list is let through by the page when its turn
    comes. *)
Fixpoint admissible (es : list Event) (st : State) : bool :=
  match es with
  | [] => true
  | e :: es' => enabled e st && admissible es' (step e st)
  end.




(** The settings the data model allows: positive durations and a positive
    [sessionsUntilLongBreak]. *)
Definition validSettings (cfg : TimerSettings) : Prop :=
  0 < studyDuration cfg /\ 0 < breakDuration cfg /\
  0 < longBreakDuration cfg /\ 0 < sessionsUntilLongBreak cfg.

(** The toast every run of [handleSessionComplete] ends with, and the
    inserts sent to the session store. *)
Definition isCompletionToast (e : Effect) : bool :=
  match e with
  | Toast title _ => String.eqb title "Session Complete!"
  | _ => false
  end.

Definition completions (l : list Effect) : nat :=
  List.length (filter isCompletionToast l).

Fixpoint inserts (l : list Effect) : list SessionData :=
  match l with
  | [] => []
  | Insert row :: l' => row :: inserts l'
  | _ :: l' => inserts l'
  end.

(** ** Scenarios *)

Definition alice : User := mkUser "alice".

Definition quietWorld : World := mkWorld InsertOk false.

Definition failingWorld : World :=
  mkWorld (InsertError "store unavailable") false.

(** A whole phase from the press on Start to the tick that completes it. *)
Definition wholePhase (w : World) (seconds : nat) : list Event :=
  Start :: repeat (Tick w) seconds.

(** A stopped phase played out: Start, then one tick for every second on
    the countdown. *)
Definition playOut (w : World) (st : State) : State :=
  run (wholePhase w (Z.to_nat (timeLeft st))) st.

(** Phases played out one after the other, each with the answers of its
    own world, and the phase the page shows at the start of each. *)
Fixpoint playAll (ws : list World) (st : State) : State :=
  match ws with
  | [] => st
  | w :: ws' => playAll ws' (playOut w st)
  end.

Fixpoint phases (ws : list World) (st : State) : list SessionType :=
  match ws with
  | [] => []
  | w :: ws' => currentSession st :: phases ws' (playOut w st)
  end.

(** The cycle the specification describes for [n] sessions until the long
    break: a study phase and a short break, [n - 1] times, then a study
    phase and the long break. *)
Definition cycle (n : nat) : list SessionType :=
  List.concat (repeat [study; break] (n - 1)%nat) ++ [study; longBreak].

(** A stopped study phase with time on the countdown, [c] sessions
    counted, under the settings [cfg]. *)
Definition ready (cfg : TimerSettings) (c : Z) (st : State) : Prop :=
  settings st = cfg /\ isRunning st = false /\ 1 <= timeLeft st /\
  currentSession st = study /\ sessionCount st = c.

(** The page after its first study phase ran to its end: stopped, in the
    short break, one session counted. *)
Definition firstBreak : State :=
  run (wholePhase quietWorld 1500) (mounted alice).

(** A run that was paused. *)
Definition pausedRun : State :=
  run [Start; Tick quietWorld; PauseResume] (mounted alice).

(** The page with a subject typed in, one second before the end of the
    study phase. *)
Definition physicsLastSecond : State :=
  run (SubjectInput "Physics" :: wholePhase quietWorld 1499)
      (mounted alice).

(** ** What the page displays *)

(** [Number.prototype.toString()] on an integer: its decimal digits, with a
    minus sign when negative. *)
Definition toString (z : Z) : string :=
  DecimalString.NilZero.string_of_int (Z.to_int z).

(** [s.padStart(target, c)] for a one-character pad string. *)
Fixpoint padding (n : nat) (c : ascii) : string :=
  match n with
  | O => EmptyString
  | S k => String c (padding k c)
  end.

Definition padStart (target : nat) (c : ascii) (s : string) : string :=
  (padding (target - String.length s) c ++ s)%string.

(** [formatTime]: [Math.floor(seconds / 60)] and [seconds % 60], each
    padded to two characters. *)
Definition formatTime (seconds : Z) : string :=
  let mins := seconds / 60 in
  let secs := Z.rem seconds 60 in
  (padStart 2 "0" (toString mins) ++ ":" ++
   padStart 2 "0" (toString secs))%string.

(** [formatDuration], the badge of a recent session. *)
Definition formatDuration (minutes : Z) : string :=
  let hours := minutes / 60 in
  let mins := Z.rem minutes 60 in
  (if hours >? 0
   then toString hours ++ "h " ++ toString mins ++ "m"
   else toString mins ++ "m")%string.

(** The character of a decimal digit. *)
Definition digit (d : Z) : ascii := ascii_of_nat (Z.to_nat (48 + d)).

Definition isTick (e : Event) : bool :=
  match e with Tick _ => true | _ => false end.

(** ** The page that runs the handlers *)

(** [handleSessionComplete] up to its [await]: the flags are cleared and,
    for a study phase with a user, the insert is sent. *)
Definition beforeAwait : Handler := fun st =>
  setIsRunning false ;;
  setIsPaused false ;;
  match currentSession st, user st with
  | study, Some u =>
      emit (Insert (mkSessionData (studyDuration (settings st)) "study"
                      (orUndefined (subject st)) (id u)))
  | _, _ => skip
  end.

(** Whether the function stops at the [await]: only when it sent an
    insert. *)
Definition awaits (st : State) : bool :=
  match currentSession st, user st with
  | study, Some _ => true
  | _, _ => false
  end.

(** [handleSessionComplete] from the answer of the insert (if one was
    sent) to its last line. *)
Definition afterAwait (w : World) : Handler := fun st =>
  match currentSession st, user st with
  | study, Some u =>
      match insertResult w with
      | InsertError e => emit (ConsoleError "Error saving session:" e)
      | InsertOk => fetchRecentSessions st
      end
  | _, _ => skip
  end ;;
  match currentSession st with
  | study =>
      let newSessionCount := sessionCount st + 1 in
      setSessionCount newSessionCount ;;
      if js_is_zero
           (js_rem newSessionCount (sessionsUntilLongBreak (settings st)))
      then setCurrentSession longBreak ;;
           setTimeLeft (longBreakDuration (settings st) * 60)
      else setCurrentSession break ;;
           setTimeLeft (breakDuration (settings st) * 60)
  | _ =>
      setCurrentSession study ;;
      setTimeLeft (studyDuration (settings st) * 60)
  end ;;
  (if notificationGranted w
   then emit (Notify "Timer Complete!" (finishedMessage (currentSession st)))
   else skip) ;;
  emit (Toast "Session Complete!" (finishedMessage (currentSession st))) ;;
  emit AnimateComplete.

(** Whether the answered insert makes the function send the select. *)
Definition sendsSelect (w : World) (st : State) : bool :=
  awaits st &&
  match insertResult w with InsertOk => true | InsertError _ => false end.

(** One firing of the interval as the page runs it, for the closure [cl]
    of the render the interval was installed in.  The updater reads the
    pending countdown.  When it calls [handleSessionComplete], that
    function runs up to its [await], or to its end when it sends no
    insert.  [eager] tells which way React ordered the updates: the
    updater evaluated at the call, its value queued after the updates of
    the function it called, or evaluated while rendering, its value
    stored first. *)
Definition fire (eager : bool) (w : World) (cl : State) : Act := fun p =>
  let (t, completed) := tickUpdater (timeLeft (next p)) in
  if completed
  then
    let call :=
      if awaits cl then beforeAwait cl
      else beforeAwait cl ;; afterAwait w cl in
    if eager then (call ;; setTimeLeft t) p else (setTimeLeft t ;; call) p
  else setTimeLeft t p.

(** The page between two renders: the hook values, the closure held by the
    interval (if one is installed), the closures of the runs of
    [handleSessionComplete] stopped at their [await], and the number of
    selects not yet answered. *)
Record Page : Type := mkPage {
  view : State;
  interval : option State;
  awaiting : list State;
  fetching : nat
}.

(** What can happen to the page: the user acts on a control, the interval
    fires, the session store answers an insert or a select. *)
Inductive Happening : Type :=
| Press (e : Event)
| Fire (eager : bool) (w : World)
| InsertAnswered (i : nat) (w : World)
| FetchAnswered (r : FetchResult).

(** The interval effect, with dependencies [isRunning] and [isPaused]: when
    neither changed from one render to the next the effect does not run and
    the interval keeps its closure; otherwise the old interval is cleared
    and, if the timer runs and is not paused, a new one is installed with
    the closure of the new render. *)
Definition reinstall (old new : State) (cl : option State) : option State :=
  if Bool.eqb (isRunning old) (isRunning new) &&
     Bool.eqb (isPaused old) (isPaused new)
  then cl
  else if isRunning new && negb (isPaused new) then Some new else None.

Fixpoint removeNth {A : Type} (i : nat) (l : list A) : list A :=
  match l, i with
  | [], _ => []
  | _ :: l', O => l'
  | x :: l', S i' => x :: removeNth i' l'
  end.

Definition rendered (pg : Page) (p : Pending)
  (waiting : list State) (selects : nat) : Page * list Effect :=
  (mkPage (next p) (reinstall (view pg) (next p) (interval pg))
     waiting selects,
   log p).

Definition happen (h : Happening) (pg : Page) : Page * list Effect :=
  let start := mkPending (view pg) [] in
  match h with
  | Press (Tick _) => (pg, [])
  | Press e =>
      rendered pg (handler e (view pg) start) (awaiting pg) (fetching pg)
  | Fire eager w =>
      match interval pg with
      | None => (pg, [])
      | Some cl =>
          rendered pg (fire eager w cl start)
            (if snd (tickUpdater (timeLeft (view pg))) && awaits cl
             then awaiting pg ++ [cl] else awaiting pg)
            (fetching pg)
      end
  | InsertAnswered i w =>
      match nth_error (awaiting pg) i with
      | None => (pg, [])
      | Some cl =>
          rendered pg (afterAwait w cl start) (removeNth i (awaiting pg))
            (if sendsSelect w cl then S (fetching pg) else fetching pg)
      end
  | FetchAnswered r =>
      match fetching pg with
      | O => (pg, [])
      | S k => rendered pg (fetchAnswered r start) (awaiting pg) k
      end
  end.

Definition pstep (h : Happening) (pg : Page) : Page := fst (happen h pg).

Definition peffects (h : Happening) (pg : Page) : list Effect :=
  snd (happen h pg).

(** When each can happen: a control is pressed when the page offers it, the
    interval fires when one is installed, an answer arrives for a request
    that is waiting for one. *)
Definition penabled (h : Happening) (pg : Page) : bool :=
  match h with
  | Press e => negb (isTick e) && enabled e (view pg)
  | Fire _ _ => match interval pg with Some _ => true | None => false end
  | InsertAnswered i _ => (i <? List.length (awaiting pg))%nat
  | FetchAnswered _ => (0 <? fetching pg)%nat
  end.

(** The page as it mounts: no interval, and the select of the mount effect
    on its way. *)
Definition mountedPage (u : User) : Page := mkPage (mounted u) None [] 1.

Inductive preachable : Page -> Prop :=
| preachable_mount (u : User) : preachable (mountedPage u)
| preachable_step (h : Happening) (pg : Page) :
    preachable pg -> penabled h pg = true -> preachable (pstep h pg).

(** The renders the mounted page can show. *)
Definition reachable (st : State) : Prop :=
  exists pg, preachable pg /\ view pg = st.

Fixpoint prun (hs : list Happening) (pg : Page) : Page :=
  match hs with
  | [] => pg
  | h :: hs' => prun hs' (pstep h pg)
  end.

Fixpoint padmissible (hs : list Happening) (pg : Page) : bool :=
  match hs with
  | [] => true
  | h :: hs' => penabled h pg && padmissible hs' (pstep h pg)
  end.

Fixpoint ptrace (hs : list Happening) (pg : Page) : list Effect :=
  match hs with
  | [] => []
  | h :: hs' => peffects h pg ++ ptrace hs' (pstep h pg)
  end.

(** The settings the selects can leave. *)
Definition settingsOffered (cfg : TimerSettings) : Prop :=
  In (studyDuration cfg) studyOptions /\
  In (breakDuration cfg) breakOptions /\
  In (longBreakDuration cfg) longBreakOptions /\
  sessionsUntilLongBreak cfg = 4.

(** What every render of the mounted page satisfies. *)
Definition invariant (st : State) : Prop :=
  settingsOffered (settings st) /\ 0 <= timeLeft st <= 3600 /\
  (isPaused st = true -> isRunning st = true) /\
  (exists u, user st = Some u).

(** An interval is installed exactly while the timer runs unpaused. *)
Definition intervalInStep (cl : option State) (v : State) : Prop :=
  match cl with
  | Some _ => isRunning v && negb (isPaused v) = true
  | None => isRunning v && negb (isPaused v) = false
  end.

(** What the page keeps between renders: the interval is in step with the
    flags, and every closure the page holds has offered settings and the
    user of the page. *)
Definition pageInvariant (pg : Page) : Prop :=
  invariant (view pg) /\
  intervalInStep (interval pg) (view pg) /\
  (forall cl,
     interval pg = Some cl \/ In cl (awaiting pg) ->
     settingsOffered (settings cl) /\ user cl = user (view pg)).

(** A page with nothing pending whose interval, if any, holds a closure
    that reads what the render shows. *)
Definition readsAlike (a b : State) : Prop :=
  user a = user b /\ currentSession a = currentSession b /\
  sessionCount a = sessionCount b /\ subject a = subject b /\
  settings a = settings b.

Definition settled (pg : Page) : Prop :=
  awaiting pg = [] /\
  intervalInStep (interval pg) (view pg) /\
  (forall cl, interval pg = Some cl -> readsAlike cl (view pg)).

(** The phase, the counter and the countdown that the last part of
    [handleSessionComplete] writes, read off the closure it runs in. *)
Definition longBreakDue (cl : State) : bool :=
  js_is_zero (js_rem (sessionCount cl + 1)
                (sessionsUntilLongBreak (settings cl))).

Definition phaseAfter (cl : State) : SessionType :=
  match currentSession cl with
  | study => if longBreakDue cl then longBreak else break
  | _ => study
  end.

Definition countAfter (cl : State) (n : Z) : Z :=
  match currentSession cl with
  | study => sessionCount cl + 1
  | _ => n
  end.

Definition secondsAfter (cl : State) : Z :=
  match currentSession cl with
  | study => if longBreakDue cl then longBreakDuration (settings cl)
             else breakDuration (settings cl)
  | _ => studyDuration (settings cl)
  end * 60.

(** ** A press on Start while an insert is on its way *)

(** The first study phase runs to its end; Start is pressed before the
    store has answered the insert; then the answer arrives. *)
Definition startBeforeTheAnswer : list Happening :=
  Press Start :: repeat (Fire false quietWorld) 1500 ++
  [Press Start].

Definition hastyStart : Page := prun startBeforeTheAnswer (mountedPage alice).

Definition hastyBreak : Page := pstep (InsertAnswered 0 quietWorld) hastyStart.

(** The break that follows runs to its end, and the store answers. *)
Definition breakToItsEnd : list Happening :=
  repeat (Fire false quietWorld) 300 ++ [InsertAnswered 0 quietWorld].

(** * Properties *)

Ltac handler_unfold :=
  unfold step, commit, effects, handler,
    handleStart, handlePause, handleStop, handleReset, handleTick,
    handleSessionComplete, beforeAwait, afterAwait, fire,
    fetchRecentSessions, fetchAnswered,
    changeStudyDuration, changeBreakDuration, changeLongBreakDuration,
    changeSubject, tickUpdater,
    setIsRunning, setIsPaused, setTimeLeft, setCurrentSession,
    setSessionCount, setSubject, setSettings, setRecentSessions,
    andThen, update, emit, skip.

Ltac handler_simpl := handler_unfold; cbn [next log app].

(** ** Runs of events *)

Lemma run_app (es1 es2 : list Event) :
  forall st, run (es1 ++ es2) st = run es2 (run es1 st).
Proof.
  induction es1 as [|e es1 IH]; intros st; cbn; [reflexivity | apply IH].
Qed.

(** The user never changes while the page is mounted: no handler of the
    component writes it. *)
Lemma step_user (e : Event) (st : State) : user (step e st) = user st.
Proof.
  destruct e; handler_simpl; try reflexivity.
  destruct (timeLeft st <=? 1); cbn; [|reflexivity].
  destruct (currentSession st), (user st) as [u|]; cbn;
    repeat match goal with
      | |- context [match ?x with _ => _ end] => destruct x; cbn
      end; reflexivity.
Qed.


(** ** The handlers, one by one *)

Lemma commit_handleStart (st : State) :
  commit handleStart st =
  mkState (user st) true false (timeLeft st) (currentSession st)
    (sessionCount st) (subject st) (settings st) (recentSessions st).
Proof. reflexivity. Qed.

Lemma commit_handlePause (st : State) :
  commit handlePause st =
  mkState (user st) (isRunning st) (negb (isPaused st)) (timeLeft st)
    (currentSession st) (sessionCount st) (subject st) (settings st)
    (recentSessions st).
Proof. reflexivity. Qed.

Lemma commit_handleStop (st : State) :
  commit handleStop st =
  mkState (user st) false false (getCurrentSessionDuration st * 60)
    (currentSession st) (sessionCount st) (subject st) (settings st)
    (recentSessions st).
Proof. reflexivity. Qed.

Lemma commit_handleReset (st : State) :
  commit handleReset st =
  mkState (user st) false false (getCurrentSessionDuration st * 60)
    study 0 (subject st) (settings st) (recentSessions st).
Proof. reflexivity. Qed.

Lemma State_eta (st : State) :
  st = mkState (user st) (isRunning st) (isPaused st) (timeLeft st)
         (currentSession st) (sessionCount st) (subject st) (settings st)
         (recentSessions st).
Proof. destruct st; reflexivity. Qed.

(** ** Reset *)

(** What Reset always does: the timer is stopped, the phase is the study
    phase and the counter is zero; the countdown is loaded with the duration
    of the phase the page was in when the button was pressed. *)
Lemma handleReset_timeLeft (st : State) :
  timeLeft (step Reset st) = studyDuration (settings st) * 60 <->
  getCurrentSessionDuration st = studyDuration (settings st).
Proof.
  unfold step, handler. rewrite commit_handleReset. cbn [timeLeft]. lia.
Qed.


(** C1: Reset is claimed to load the countdown with [studyMinutes * 60] in
    every state.  Pressed in the short break that follows the first study
    phase (default settings), Reset stops the timer, returns to the study
    phase and zeroes the counter, but the countdown reads 300 seconds, the
    length of the break, where the study phase lasts 1500. *)
Theorem handleReset_in_break_loads_break_duration :
  currentSession firstBreak = break /\
  settings firstBreak = defaultSettings /\
  isRunning (step Reset firstBreak) = false /\
  isPaused (step Reset firstBreak) = false /\
  currentSession (step Reset firstBreak) = study /\
  sessionCount (step Reset firstBreak) = 0 /\
  timeLeft (step Reset firstBreak) = 300 /\
  studyDuration (settings (step Reset firstBreak)) * 60 = 1500.
Proof. vm_compute. repeat split; reflexivity. Qed.


(** ** Stop *)

(** C7: Stop leaves the timer stopped with the countdown at the full
    duration of the current phase (the study, break or long break duration
    of the settings, in seconds) and changes nothing else; Start is then
    offered, and pressing it runs that same phase from its full duration. *)
Theorem handleStop_then_handleStart (st : State) :
  let full :=
    match currentSession st with
    | study => studyDuration (settings st)
    | break => breakDuration (settings st)
    | longBreak => longBreakDuration (settings st)
    end * 60 in
  step Stop st =
    mkState (user st) false false full
      (currentSession st) (sessionCount st) (subject st) (settings st)
      (recentSessions st) /\
  effects handleStop st = [] /\
  enabled Start (step Stop st) = true /\
  step Start (step Stop st) =
    mkState (user st) true false full
      (currentSession st) (sessionCount st) (subject st) (settings st)
      (recentSessions st).
Proof.
  cbv zeta. unfold step, handler.
  rewrite commit_handleStart, commit_handleStop.
  unfold getCurrentSessionDuration. cbn.
  destruct (currentSession st); repeat split.
Qed.

Lemma handleStop_then_handleStart_witness :
  let st := run [Start; Tick quietWorld; Tick quietWorld] firstBreak in
  timeLeft st = 298 /\ currentSession st = break /\
  timeLeft (step Start (step Stop st)) = 300 /\
  currentSession (step Start (step Stop st)) = break /\
  isRunning (step Start (step Stop st)) = true.
Proof.
  cbv zeta.
  destruct (handleStop_then_handleStart
              (run [Start; Tick quietWorld; Tick quietWorld] firstBreak))
    as (_ & _ & _ & Hstart).
  rewrite Hstart. vm_compute. repeat split.
Defined.

(** ** Pause and Resume *)

(** C8: in a running, unpaused state the Pause button is offered; pressing
    it pauses, no tick is let through while paused, the same button is
    offered again as Resume, and pressing it gives back the state the
    pause started from, countdown included. *)
Theorem pause_then_resume (st : State) :
  isRunning st = true -> isPaused st = false ->
  enabled PauseResume st = true /\
  isPaused (step PauseResume st) = true /\
  timeLeft (step PauseResume st) = timeLeft st /\
  (forall w, enabled (Tick w) (step PauseResume st) = false) /\
  enabled PauseResume (step PauseResume st) = true /\
  step PauseResume (step PauseResume st) = st.
Proof.
  intros Hrun Hpaused. destruct st as [u r p t c n s cfg rs]. cbn in *. subst.
  repeat split.
Qed.

Lemma pause_then_resume_witness :
  let st := run [Start; Tick quietWorld] (mounted alice) in
  timeLeft st = 1499 /\ step PauseResume (step PauseResume st) = st.
Proof.
  cbv zeta. split; [reflexivity|].
  apply (pause_then_resume
           (run [Start; Tick quietWorld] (mounted alice)));
    reflexivity.
Defined.

(** ** Start *)

(** C9, as stated, fails on a paused run: there [handleStart] clears
    [isPaused]. *)
Lemma handleStart_on_paused_run :
  isRunning pausedRun = true /\ isPaused pausedRun = true /\
  commit handleStart pausedRun <> pausedRun.
Proof. repeat split. vm_compute. discriminate. Qed.

(** C9, amended: Start is offered exactly while the timer is stopped;
    [handleStart] sets running and clears paused whatever the state, leaving
    every other value; so it leaves the state unchanged exactly when the
    timer is running and not paused. *)
Theorem handleStart_spec (st : State) :
  enabled Start st = negb (isRunning st) /\
  commit handleStart st =
    mkState (user st) true false (timeLeft st) (currentSession st)
      (sessionCount st) (subject st) (settings st) (recentSessions st) /\
  (commit handleStart st = st <-> isRunning st = true /\ isPaused st = false).
Proof.
  split; [reflexivity|]. split; [reflexivity|].
  rewrite commit_handleStart. destruct st as [u r p t c n s cfg rs]. cbn.
  split.
  - intros H. injection H as Hr Hp. split; symmetry; assumption.
  - intros [Hr Hp]. subst. reflexivity.
Qed.

(** ** Completing a phase *)

Lemma js_rem_zero_iff (a n : Z) :
  n <> 0 -> (js_is_zero (js_rem a n) = true <-> a mod n = 0).
Proof.
  intros Hn. unfold js_rem, js_is_zero.
  destruct (Z.eqb_spec n 0) as [|_]; [contradiction|].
  rewrite Z.eqb_eq, Z.rem_divide, Z.mod_divide by exact Hn. reflexivity.
Qed.


(** The timer values [handleSessionComplete] leaves, whatever the store
    answers. *)
Lemma commit_handleSessionComplete_study (w : World) (st : State) :
  currentSession st = study ->
  let longNext :=
    js_is_zero (js_rem (sessionCount st + 1)
                  (sessionsUntilLongBreak (settings st))) in
  let st' := commit (handleSessionComplete w) st in
  user st' = user st /\ isRunning st' = false /\ isPaused st' = false /\
  timeLeft st' = (if longNext then longBreakDuration (settings st)
                  else breakDuration (settings st)) * 60 /\
  currentSession st' = (if longNext then longBreak else break) /\
  sessionCount st' = sessionCount st + 1 /\
  subject st' = subject st /\ settings st' = settings st.
Proof.
  intros Hc. cbv zeta. handler_simpl. rewrite Hc.
  destruct (user st) as [u|], (insertResult w); cbn;
    destruct (js_is_zero (js_rem (sessionCount st + 1)
                            (sessionsUntilLongBreak (settings st))));
    cbn; destruct (notificationGranted w); cbn; repeat split.
Qed.

Lemma commit_handleSessionComplete_break (w : World) (st : State) :
  currentSession st <> study ->
  commit (handleSessionComplete w) st =
  mkState (user st) false false (studyDuration (settings st) * 60) study
    (sessionCount st) (subject st) (settings st) (recentSessions st).
Proof.
  intros Hc. handler_simpl.
  destruct (currentSession st); [congruence | |];
    destruct (user st), (notificationGranted w); reflexivity.
Qed.



(** ** The countdown *)

Lemma getCurrentSessionDuration_positive (st : State) :
  validSettings (settings st) -> 0 < getCurrentSessionDuration st.
Proof.
  intros (Hs & Hb & Hl & _). unfold getCurrentSessionDuration.
  destruct (currentSession st); assumption.
Qed.

(** A tick that does not complete the phase only moves the countdown. *)
Lemma step_Tick_counting (w : World) (st : State) :
  1 < timeLeft st ->
  step (Tick w) st =
    mkState (user st) (isRunning st) (isPaused st) (timeLeft st - 1)
      (currentSession st) (sessionCount st) (subject st) (settings st)
      (recentSessions st) /\
  effects (handleTick w) st = [].
Proof.
  intros Ht. handler_simpl.
  destruct (Z.leb_spec (timeLeft st) 1) as [Hle|_]; [lia|].
  split; reflexivity.
Qed.

(** A tick that completes the phase is one run of
    [handleSessionComplete]. *)
Lemma step_Tick_completing (w : World) (st : State) :
  timeLeft st <= 1 ->
  step (Tick w) st = commit (handleSessionComplete w) st /\
  effects (handleTick w) st = effects (handleSessionComplete w) st.
Proof.
  intros Ht. handler_simpl.
  destruct (Z.leb_spec (timeLeft st) 1) as [_|Hgt]; [|lia].
  cbn.
  destruct (currentSession st), (user st) as [u|]; cbn;
    repeat match goal with
      | |- context [match ?x with _ => _ end] => destruct x; cbn
      end; split; reflexivity.
Qed.

Lemma completions_handleSessionComplete (w : World) (st : State) :
  completions (effects (handleSessionComplete w) st) = 1%nat.
Proof.
  handler_simpl.
  destruct (currentSession st), (user st) as [u|]; cbn;
    repeat match goal with
      | |- context [match ?x with _ => _ end] => destruct x; cbn
      end; reflexivity.
Qed.

Lemma isRunning_handleSessionComplete (w : World) (st : State) :
  isRunning (commit (handleSessionComplete w) st) = false.
Proof.
  handler_simpl.
  destruct (currentSession st), (user st) as [u|]; cbn;
    repeat match goal with
      | |- context [match ?x with _ => _ end] => destruct x; cbn
      end; reflexivity.
Qed.

(** ** Persisting a study session *)

Lemma orUndefined_spec (x : string) :
  orUndefined x = if String.eqb x "" then None else Some x.
Proof. destruct x; reflexivity. Qed.

Lemma inserts_handleSessionComplete (w : World) (st : State) :
  inserts (effects (handleSessionComplete w) st) =
  match currentSession st, user st with
  | study, Some u =>
      [mkSessionData (studyDuration (settings st)) "study"
         (orUndefined (subject st)) (id u)]
  | _, _ => []
  end.
Proof.
  handler_simpl.
  destruct (currentSession st), (user st) as [u|]; cbn;
    repeat match goal with
      | |- context [match ?x with _ => _ end] => destruct x; cbn
      end; reflexivity.
Qed.

(** C6: when the insert fails, [handleSessionComplete] still stops the
    timer, still counts the study session, still moves to the next phase
    (the long break when the new count is a multiple of
    [sessionsUntilLongBreak], the short break otherwise, the study phase
    after a break) and still loads the full duration of that phase; the
    state it leaves is the state a successful insert leaves.  What leaves
    the component is one insert and one line on the error console for a
    study phase, nothing for a break, followed by the notification (if
    granted), the toast and the animation: no second insert, no read of
    the store. *)
Theorem insert_failure_is_only_logged (w : World) (e : string) (st : State) :
  let failed := mkWorld (InsertError e) (notificationGranted w) in
  let succeeded := mkWorld InsertOk (notificationGranted w) in
  commit (handleSessionComplete failed) st =
    match currentSession st with
    | study =>
        if js_is_zero (js_rem (sessionCount st + 1)
                         (sessionsUntilLongBreak (settings st)))
        then mkState (user st) false false
               (longBreakDuration (settings st) * 60) longBreak
               (sessionCount st + 1) (subject st) (settings st)
               (recentSessions st)
        else mkState (user st) false false
               (breakDuration (settings st) * 60) break
               (sessionCount st + 1) (subject st) (settings st)
               (recentSessions st)
    | _ =>
        mkState (user st) false false
          (studyDuration (settings st) * 60) study
          (sessionCount st) (subject st) (settings st)
          (recentSessions st)
    end /\
  commit (handleSessionComplete failed) st =
    commit (handleSessionComplete succeeded) st /\
  effects (handleSessionComplete failed) st =
    match currentSession st, user st with
    | study, Some u =>
        [Insert (mkSessionData (studyDuration (settings st)) "study"
                   (orUndefined (subject st)) (id u));
         ConsoleError "Error saving session:" e]
    | _, _ => []
    end ++
    (if notificationGranted w
     then [Notify "Timer Complete!" (finishedMessage (currentSession st))]
     else []) ++
    [Toast "Session Complete!" (finishedMessage (currentSession st));
     AnimateComplete].
Proof.
  cbv zeta. handler_simpl. cbn.
  destruct (currentSession st), (user st) as [u|]; cbn;
    repeat match goal with
      | |- context [match ?x with _ => _ end] => destruct x; cbn
      end; repeat split.
Qed.

(** The scenario of a store that fails: the study phase still ends in the
    short break with its full countdown and one session counted. *)
Example failed_insert_scenario :
  step (Tick failingWorld) physicsLastSecond =
    step (Tick quietWorld) physicsLastSecond /\
  currentSession (step (Tick failingWorld) physicsLastSecond) = break /\
  timeLeft (step (Tick failingWorld) physicsLastSecond) = 300 /\
  sessionCount (step (Tick failingWorld) physicsLastSecond) = 1 /\
  effects (handleTick failingWorld) physicsLastSecond =
    [Insert (mkSessionData 25 "study" (Some "Physics"%string) "alice");
     ConsoleError "Error saving session:" "store unavailable";
     Toast "Session Complete!" "Study session finished.";
     AnimateComplete].
Proof. vm_compute. repeat split. Qed.

(** ** Playing a phase out *)

(** [handleSessionComplete] reads neither the countdown nor the running
    flags of its snapshot. *)
Lemma handleSessionComplete_reads
  (w : World) (st : State) (r p : bool) (t : Z) :
  commit (handleSessionComplete w)
    (mkState (user st) r p t (currentSession st) (sessionCount st)
       (subject st) (settings st) (recentSessions st)) =
  commit (handleSessionComplete w) st.
Proof.
  handler_simpl. cbn.
  destruct (currentSession st), (user st) as [u|]; cbn;
    repeat match goal with
      | |- context [match ?x with _ => _ end] => destruct x; cbn
      end; reflexivity.
Qed.

(** As many ticks as there are seconds left complete the phase, and each of
    them is let through. *)
Lemma run_ticks (w : World) (n : nat) :
  forall st,
    isRunning st = true -> isPaused st = false ->
    timeLeft st = Z.of_nat (S n) ->
    run (repeat (Tick w) (S n)) st = commit (handleSessionComplete w) st /\
    admissible (repeat (Tick w) (S n)) st = true.
Proof.
  induction n as [|n IH]; intros st Hr Hp Ht.
  - cbn [repeat run admissible enabled]. rewrite Hr, Hp.
    destruct (step_Tick_completing w st) as [-> _]; [lia|].
    split; reflexivity.
  - cbn [repeat run admissible enabled] in *. rewrite Hr, Hp.
    destruct (step_Tick_counting w st) as [Hstep _]; [lia|].
    rewrite Hstep.
    destruct (IH (mkState (user st) (isRunning st) (isPaused st)
                    (timeLeft st - 1) (currentSession st) (sessionCount st)
                    (subject st) (settings st) (recentSessions st)))
      as [Hrun Hadm]; cbn [isRunning isPaused timeLeft]; try assumption;
      [lia|].
    split; [|exact Hadm].
    rewrite Hrun. apply handleSessionComplete_reads.
Qed.

(** A stopped phase with time on the countdown, played out, is one run of
    [handleSessionComplete]; the page lets the whole play through. *)
Lemma playOut_completes (w : World) (st : State) :
  isRunning st = false -> 1 <= timeLeft st ->
  playOut w st = commit (handleSessionComplete w) st /\
  admissible (wholePhase w (Z.to_nat (timeLeft st))) st = true.
Proof.
  intros Hr Ht. unfold playOut, wholePhase.
  destruct (Z.to_nat (timeLeft st)) as [|n] eqn:Hn; [lia|].
  cbn [run admissible enabled]. rewrite Hr. cbn [negb andb].
  destruct (run_ticks w n (step Start st)) as [Hrun Hadm];
    try reflexivity.
  { cbn. lia. }
  rewrite Hrun, Hadm. split; [|reflexivity].
  unfold step, handler. rewrite commit_handleStart.
  apply handleSessionComplete_reads.
Qed.

(** ** The cycle of phases *)

Lemma phases_app (ws1 ws2 : list World) :
  forall st,
    phases (ws1 ++ ws2) st = phases ws1 st ++ phases ws2 (playAll ws1 st).
Proof.
  induction ws1 as [|w ws1 IH]; intros st; cbn; [reflexivity|].
  rewrite IH. reflexivity.
Qed.

Lemma playAll_app (ws1 ws2 : list World) :
  forall st, playAll (ws1 ++ ws2) st = playAll ws2 (playAll ws1 st).
Proof.
  induction ws1 as [|w ws1 IH]; intros st; cbn; [reflexivity | apply IH].
Qed.

Section Cycle.

Variable cfg : TimerSettings.
Hypothesis cfg_valid : validSettings cfg.

Let n : Z := sessionsUntilLongBreak cfg.

Lemma n_positive : 0 < n.
Proof. destruct cfg_valid as (_ & _ & _ & H). exact H. Qed.

Lemma mod_inside_cycle (q j : Z) :
  0 <= j -> j + 1 < n -> (q * n + j + 1) mod n <> 0.
Proof.
  intros Hj Hlt.
  replace (q * n + j + 1) with ((j + 1) + q * n) by lia.
  rewrite Z.mod_add by lia. rewrite Z.mod_small by lia. lia.
Qed.

Lemma mod_end_of_cycle (q : Z) : (q * n + (n - 1) + 1) mod n = 0.
Proof.
  replace (q * n + (n - 1) + 1) with ((q + 1) * n) by lia.
  apply Z.mod_mul. pose proof n_positive. lia.
Qed.

(** The completion of a study phase, played out from a stopped state. *)
Lemma playOut_study (w : World) (c : Z) (st : State) :
  ready cfg c st ->
  let st' := playOut w st in
  settings st' = cfg /\ isRunning st' = false /\ 1 <= timeLeft st' /\
  sessionCount st' = c + 1 /\
  ((c + 1) mod n = 0 -> currentSession st' = longBreak) /\
  ((c + 1) mod n <> 0 -> currentSession st' = break).
Proof.
  intros (Hcfg & Hr & Ht & Hc & Hn). cbv zeta.
  destruct (playOut_completes w st Hr Ht) as [-> _].
  destruct (commit_handleSessionComplete_study w st Hc)
    as (_ & Hr' & _ & Ht' & Hc' & Hn' & _ & Hcfg').
  pose proof n_positive as Hpos.
  destruct cfg_valid as (_ & Hb & Hl & _).
  assert (Hn0 : sessionsUntilLongBreak (settings st) <> 0)
    by (rewrite Hcfg; fold n; lia).
  pose proof (js_rem_zero_iff (sessionCount st + 1) _ Hn0) as Hlong.
  rewrite Hcfg, Hn in *.
  rewrite Hcfg', Hr', Ht', Hc', Hn'.
  destruct (js_is_zero (js_rem (c + 1) (sessionsUntilLongBreak cfg))).
  - repeat split; try lia.
    intros Hne. exfalso. apply Hne. apply Hlong. reflexivity.
  - repeat split; try lia.
    intros Hz. apply Hlong in Hz. discriminate.
Qed.

(** The completion of a break, played out from a stopped state. *)
Lemma playOut_break (w : World) (c : Z) (st : State) :
  settings st = cfg -> isRunning st = false -> 1 <= timeLeft st ->
  currentSession st <> study -> sessionCount st = c ->
  ready cfg c (playOut w st).
Proof.
  intros Hcfg Hr Ht Hc Hn.
  destruct (playOut_completes w st Hr Ht) as [-> _].
  rewrite (commit_handleSessionComplete_break w st Hc).
  destruct cfg_valid as (Hs & _).
  unfold ready. cbn. rewrite Hcfg. repeat split; try assumption. lia.
Qed.

Lemma study_then_break (w1 w2 : World) (c : Z) (st : State) :
  ready cfg c st -> (c + 1) mod n <> 0 ->
  phases [w1; w2] st = [study; break] /\
  ready cfg (c + 1) (playAll [w1; w2] st).
Proof.
  intros Hready Hmod.
  destruct (playOut_study w1 c st Hready)
    as (Hcfg & Hr & Ht & Hn & _ & Hbreak).
  specialize (Hbreak Hmod).
  destruct Hready as (_ & _ & _ & Hc & _).
  cbn [phases playAll]. rewrite Hc, Hbreak. split; [reflexivity|].
  apply playOut_break; try assumption. rewrite Hbreak. discriminate.
Qed.

Lemma study_then_longBreak (w1 w2 : World) (c : Z) (st : State) :
  ready cfg c st -> (c + 1) mod n = 0 ->
  phases [w1; w2] st = [study; longBreak] /\
  sessionCount (playOut w1 st) = c + 1 /\
  ready cfg (c + 1) (playAll [w1; w2] st).
Proof.
  intros Hready Hmod.
  destruct (playOut_study w1 c st Hready)
    as (Hcfg & Hr & Ht & Hn & Hlong & _).
  specialize (Hlong Hmod).
  destruct Hready as (_ & _ & _ & Hc & _).
  cbn [phases playAll]. rewrite Hc, Hlong.
  split; [reflexivity|]. split; [exact Hn|].
  apply playOut_break; try assumption. rewrite Hlong. discriminate.
Qed.

(** [m] study phases in a row that each end in a short break. *)
Lemma short_rounds (m : nat) :
  forall (ws : list World) (st : State) (q j : Z),
    List.length ws = (2 * m)%nat ->
    0 <= j -> j + Z.of_nat m < n ->
    ready cfg (q * n + j) st ->
    phases ws st = List.concat (repeat [study; break] m) /\
    ready cfg (q * n + j + Z.of_nat m) (playAll ws st).
Proof.
  induction m as [|m IH]; intros ws st q j Hlen Hj Hlt Hready.
  - destruct ws; [|discriminate]. cbn.
    split; [reflexivity|].
    replace (q * n + j + 0) with (q * n + j) by lia. exact Hready.
  - destruct ws as [|w1 [|w2 ws]]; cbn in Hlen; try lia.
    destruct (study_then_break w1 w2 _ st Hready) as [Hph Hnext].
    { apply mod_inside_cycle; lia. }
    destruct (IH ws (playAll [w1; w2] st) q (j + 1)) as [Hph' Hnext'];
      try lia.
    { replace (q * n + (j + 1)) with (q * n + j + 1) by lia. exact Hnext. }
    change (w1 :: w2 :: ws) with ([w1; w2] ++ ws).
    rewrite phases_app, playAll_app, Hph, Hph'.
    split; [reflexivity|].
    replace (q * n + j + Z.of_nat (S m))
      with (q * n + (j + 1) + Z.of_nat m) by lia.
    exact Hnext'.
Qed.

(** One whole cycle, from a count that is a multiple of [n] to the next. *)
Lemma one_cycle (ws : list World) (st : State) (q : Z) :
  List.length ws = (2 * Z.to_nat n)%nat ->
  ready cfg (q * n) st ->
  phases ws st = cycle (Z.to_nat n) /\
  ready cfg ((q + 1) * n) (playAll ws st).
Proof.
  intros Hlen Hready. pose proof n_positive as Hpos.
  set (m := (Z.to_nat n - 1)%nat).
  assert (Hsplit : ws = firstn (2 * m) ws ++ skipn (2 * m) ws)
    by (symmetry; apply firstn_skipn).
  assert (Hfirst : List.length (firstn (2 * m) ws) = (2 * m)%nat)
    by (rewrite length_firstn; lia).
  assert (Hlast : List.length (skipn (2 * m) ws) = 2%nat)
    by (rewrite length_skipn; lia).
  destruct (skipn (2 * m) ws) as [|w1 [|w2 [|w3 rest]]];
    try discriminate.
  rewrite Hsplit, phases_app, playAll_app.
  destruct (short_rounds m (firstn (2 * m) ws) st q 0) as [Hph Hnext];
    try lia.
  { replace (q * n + 0) with (q * n) by lia. exact Hready. }
  destruct (study_then_longBreak w1 w2 _ _ Hnext) as (Hph' & _ & Hnext').
  { replace (q * n + 0 + Z.of_nat m) with (q * n + (n - 1)) by lia.
    apply mod_end_of_cycle. }
  rewrite Hph, Hph'. split; [reflexivity|].
  replace ((q + 1) * n) with (q * n + 0 + Z.of_nat m + 1) by lia.
  exact Hnext'.
Qed.

(** Any number of cycles. *)
Lemma cycles (r : nat) :
  forall (ws : list World) (st : State) (q : Z),
    List.length ws = (r * (2 * Z.to_nat n))%nat ->
    ready cfg (q * n) st ->
    phases ws st = List.concat (repeat (cycle (Z.to_nat n)) r) /\
    ready cfg ((q + Z.of_nat r) * n) (playAll ws st).
Proof.
  induction r as [|r IH]; intros ws st q Hlen Hready.
  - destruct ws; [|discriminate]. cbn. split; [reflexivity|].
    replace ((q + 0) * n) with (q * n) by lia. exact Hready.
  - set (k := (2 * Z.to_nat n)%nat) in *.
    assert (Hsplit : ws = firstn k ws ++ skipn k ws)
      by (symmetry; apply firstn_skipn).
    assert (Hfirst : List.length (firstn k ws) = k)
      by (rewrite length_firstn; lia).
    assert (Hrest : List.length (skipn k ws) = (r * k)%nat)
      by (rewrite length_skipn; lia).
    destruct (one_cycle (firstn k ws) st q Hfirst Hready) as [Hph Hnext].
    destruct (IH (skipn k ws) _ (q + 1) Hrest Hnext) as [Hph' Hnext'].
    rewrite Hsplit, phases_app, playAll_app, Hph, Hph'.
    split; [reflexivity|].
    replace ((q + Z.of_nat (S r)) * n) with ((q + 1 + Z.of_nat r) * n)
      by lia.
    exact Hnext'.
Qed.

End Cycle.

Lemma ready_after_Reset (st : State) :
  validSettings (settings st) -> ready (settings st) 0 (step Reset st).
Proof.
  intros Hvalid.
  pose proof (getCurrentSessionDuration_positive st Hvalid) as Hd.
  unfold step, handler. rewrite commit_handleReset.
  unfold ready. cbn. repeat split. lia.
Qed.

(** Playing phases out stays within what the page lets happen. *)

(** When every insert is answered before anything else happens and every
    phase is played out from Start to its completing tick, the phases
    after Reset are copies of the cycle. *)
Lemma cycle_when_every_phase_is_played_out (st : State) :
  validSettings (settings st) ->
  forall (r : nat) (ws : list World),
    List.length ws =
      (r * (2 * Z.to_nat (sessionsUntilLongBreak (settings st))))%nat ->
    phases ws (step Reset st) =
      List.concat
        (repeat (cycle (Z.to_nat (sessionsUntilLongBreak (settings st)))) r) /\
    sessionCount (playAll ws (step Reset st)) =
      Z.of_nat r * sessionsUntilLongBreak (settings st).
Proof.
  intros Hvalid r ws Hlen.
  pose proof (ready_after_Reset st Hvalid) as Hready.
  destruct (cycles (settings st) Hvalid r ws (step Reset st) 0 Hlen)
    as [Hph Hnext].
  { exact Hready. }
  split; [exact Hph|].
  destruct Hnext as (_ & _ & _ & _ & Hcount). rewrite Hcount. lia.
Qed.

(** ** Changing a duration *)






(** * Further properties of the page *)

(** ** Stop and Reset, composed *)

(** X4: whatever Reset left on the countdown, a second Reset, or a Stop,
    loads the study duration: after Reset the phase is the study phase, and
    both handlers read the duration of the phase they are pressed in. *)
Theorem second_Reset_loads_the_study_duration (st : State) :
  step Reset (step Reset st) =
    mkState (user st) false false (studyDuration (settings st) * 60)
      study 0 (subject st) (settings st) (recentSessions st) /\
  step Stop (step Reset st) = step Reset (step Reset st).
Proof. split; reflexivity. Qed.


(** ** What each event leaves alone *)

(** X6: the phase and the session counter change only through Reset or
    through the tick that completes a phase; no other event touches
    them. *)
Theorem phase_changes_only_on_completion_or_Reset (e : Event) (st : State) :
  currentSession (step e st) <> currentSession st \/
  sessionCount (step e st) <> sessionCount st ->
  e = Reset \/ exists w, e = Tick w /\ timeLeft st <= 1.
Proof.
  intros Hchange.
  destruct e; try (cbn in Hchange; destruct Hchange; congruence).
  - left. reflexivity.
  - right. exists w. split; [reflexivity|].
    destruct (Z.leb_spec (timeLeft st) 1) as [Hle|Hgt]; [exact Hle|].
    destruct (step_Tick_counting w st Hgt) as [Hstep _].
    rewrite Hstep in Hchange. cbn in Hchange.
    destruct Hchange; congruence.
Qed.

Lemma phase_changes_only_on_completion_or_Reset_witness :
  Reset = Reset \/
  exists w, Reset = Tick w /\ timeLeft firstBreak <= 1.
Proof.
  apply (phase_changes_only_on_completion_or_Reset Reset firstBreak).
  left. vm_compute. discriminate.
Defined.

(** ** Playing a phase out, second by second *)

Lemma run_ticks_partial (w : World) (k : nat) :
  forall st,
    Z.of_nat k < timeLeft st ->
    run (repeat (Tick w) k) st =
    mkState (user st) (isRunning st) (isPaused st)
      (timeLeft st - Z.of_nat k) (currentSession st) (sessionCount st)
      (subject st) (settings st) (recentSessions st).
Proof.
  induction k as [|k IH]; intros st Hk.
  - cbn [repeat run]. cbn. rewrite Z.sub_0_r. apply State_eta.
  - cbn [repeat run].
    destruct (step_Tick_counting w st) as [Hstep _]; [lia|].
    rewrite Hstep, IH by (cbn; lia). cbn. f_equal. lia.
Qed.

(** X11: from a stopped state, Start followed by one tick for every second
    on the countdown is let through by the page and ends in the completion
    of the phase; with fewer ticks the timer is still running in the same
    phase, the countdown short by the number of ticks. *)
Theorem whole_phase_takes_every_second (w : World) (st : State) :
  isRunning st = false -> 1 <= timeLeft st ->
  admissible (wholePhase w (Z.to_nat (timeLeft st))) st = true /\
  playOut w st = commit (handleSessionComplete w) st /\
  forall k : nat,
    Z.of_nat k < timeLeft st ->
    run (wholePhase w k) st =
    mkState (user st) true false (timeLeft st - Z.of_nat k)
      (currentSession st) (sessionCount st) (subject st) (settings st)
      (recentSessions st).
Proof.
  intros Hr Ht.
  destruct (playOut_completes w st Hr Ht) as [Hplay Hadm].
  split; [exact Hadm|]. split; [exact Hplay|].
  intros k Hk. unfold wholePhase. cbn [run].
  rewrite run_ticks_partial by (cbn; exact Hk). reflexivity.
Qed.

Lemma whole_phase_takes_every_second_witness :
  timeLeft (run (wholePhase quietWorld 10) (mounted alice)) = 1490 /\
  currentSession (playOut quietWorld (mounted alice)) = break.
Proof.
  destruct (whole_phase_takes_every_second quietWorld
              (mounted alice)) as (_ & Hplay & Hpartial);
    [reflexivity | cbn; lia |].
  split.
  - rewrite (Hpartial 10%nat) by (cbn; lia). reflexivity.
  - rewrite Hplay. reflexivity.
Defined.

(** ** The countdown as the page prints it *)

Ltac div_lia := Z.div_mod_to_equations; lia.

Lemma two_digits (m : Z) :
  0 <= m < 100 ->
  padStart 2 "0" (toString m) =
  String (digit (m / 10)) (String (digit (m mod 10)) EmptyString).
Proof.
  intros Hm.
  assert (Hall :
    forallb (fun k =>
               String.eqb
                 (padStart 2 "0" (toString (Z.of_nat k)))
                 (String (digit (Z.of_nat k / 10))
                    (String (digit (Z.of_nat k mod 10)) EmptyString)))
      (seq 0 100) = true) by (vm_compute; reflexivity).
  rewrite forallb_forall in Hall.
  specialize (Hall (Z.to_nat m)).
  rewrite Z2Nat.id in Hall by lia.
  apply String.eqb_eq. apply Hall. apply in_seq. lia.
Qed.

Lemma digit_inj (a b : Z) :
  0 <= a < 10 -> 0 <= b < 10 -> digit a = digit b -> a = b.
Proof.
  intros Ha Hb Heq. unfold digit in Heq.
  apply (f_equal nat_of_ascii) in Heq.
  rewrite !nat_ascii_embedding in Heq by lia. lia.
Qed.

(** X12: for a countdown below 100 minutes [formatTime] prints five
    characters: the two digits of the minutes, a colon, the two digits of
    the seconds, each with its leading zero. *)
Theorem formatTime_prints_minutes_and_seconds (s : Z) :
  0 <= s < 6000 ->
  formatTime s =
  String (digit (s / 600))
    (String (digit (s / 60 mod 10))
       (String ":"
          (String (digit (s mod 60 / 10))
             (String (digit (s mod 10)) EmptyString)))).
Proof.
  intros Hs. unfold formatTime. cbv zeta.
  rewrite Z.rem_mod_nonneg by div_lia.
  rewrite (two_digits (s / 60)) by div_lia.
  rewrite (two_digits (s mod 60)) by div_lia.
  cbn [append].
  replace (s / 60 / 10) with (s / 600) by div_lia.
  replace (s mod 60 mod 10) with (s mod 10) by div_lia.
  reflexivity.
Qed.

Lemma formatTime_prints_minutes_and_seconds_witness :
  formatTime 1499 = "24:59"%string.
Proof.
  rewrite formatTime_prints_minutes_and_seconds by lia. reflexivity.
Defined.

(** X13: two different countdowns below 100 minutes are never printed
    alike. *)
Theorem formatTime_is_injective (a b : Z) :
  0 <= a < 6000 -> 0 <= b < 6000 ->
  formatTime a = formatTime b -> a = b.
Proof.
  intros Ha Hb Heq.
  rewrite !formatTime_prints_minutes_and_seconds in Heq by assumption.
  injection Heq as H1 H2 H3 H4.
  apply digit_inj in H1, H2, H3, H4; div_lia.
Qed.

Lemma formatTime_is_injective_witness : 1500 = 25 * 60.
Proof.
  apply formatTime_is_injective; [lia | lia | reflexivity].
Defined.

(** * The page *)

(** ** What the parts of [handleSessionComplete] leave *)

Lemma handleSessionComplete_parts (w : World) (st : State) (p : Pending) :
  handleSessionComplete w st p = afterAwait w st (beforeAwait st p).
Proof.
  handler_simpl.
  destruct (currentSession st), (user st) as [u|]; cbn;
    repeat match goal with
      | |- context [match ?x with _ => _ end] => destruct x; cbn
      end; reflexivity.
Qed.

Lemma next_beforeAwait (cl : State) (p : Pending) :
  next (beforeAwait cl p) =
  mkState (user (next p)) false false (timeLeft (next p))
    (currentSession (next p)) (sessionCount (next p)) (subject (next p))
    (settings (next p)) (recentSessions (next p)).
Proof.
  handler_simpl. destruct (currentSession cl), (user cl); reflexivity.
Qed.

Lemma next_afterAwait (w : World) (cl : State) (p : Pending) :
  next (afterAwait w cl p) =
  mkState (user (next p)) (isRunning (next p)) (isPaused (next p))
    (secondsAfter cl) (phaseAfter cl)
    (countAfter cl (sessionCount (next p))) (subject (next p))
    (settings (next p)) (recentSessions (next p)).
Proof.
  unfold secondsAfter, phaseAfter, countAfter, longBreakDue.
  handler_simpl.
  destruct (currentSession cl), (user cl) as [u|]; cbn;
    repeat match goal with
      | |- context [match ?x with _ => _ end] => destruct x; cbn
      end; reflexivity.
Qed.

Lemma next_fetchAnswered (r : FetchResult) (p : Pending) :
  next (fetchAnswered r p) =
  mkState (user (next p)) (isRunning (next p)) (isPaused (next p))
    (timeLeft (next p)) (currentSession (next p)) (sessionCount (next p))
    (subject (next p)) (settings (next p))
    (match r with
     | FetchOk (Some rows) => rows
     | FetchOk None => []
     | FetchError _ => recentSessions (next p)
     end).
Proof.
  handler_simpl. destruct r as [[rows|]|e]; cbn; try reflexivity.
  destruct (next p); reflexivity.
Qed.

Lemma next_setTimeLeft (t : Z) (p : Pending) :
  next (setTimeLeft t p) =
  mkState (user (next p)) (isRunning (next p)) (isPaused (next p)) t
    (currentSession (next p)) (sessionCount (next p)) (subject (next p))
    (settings (next p)) (recentSessions (next p)).
Proof. reflexivity. Qed.

Ltac next_simpl :=
  repeat (rewrite ?next_setTimeLeft, ?next_afterAwait, ?next_beforeAwait,
            ?next_fetchAnswered;
          cbn [next user isRunning isPaused timeLeft currentSession
                 sessionCount subject settings recentSessions]).

(** The render a firing leaves. *)
Lemma next_fire (eager : bool) (w : World) (cl v : State) :
  next (fire eager w cl (mkPending v [])) =
  if timeLeft v <=? 1
  then
    if awaits cl
    then mkState (user v) false false 0 (currentSession v) (sessionCount v)
           (subject v) (settings v) (recentSessions v)
    else mkState (user v) false false
           (if eager then 0 else secondsAfter cl) (phaseAfter cl)
           (countAfter cl (sessionCount v)) (subject v) (settings v)
           (recentSessions v)
  else mkState (user v) (isRunning v) (isPaused v) (timeLeft v - 1)
         (currentSession v) (sessionCount v) (subject v) (settings v)
         (recentSessions v).
Proof.
  unfold fire, tickUpdater. cbn [next].
  destruct (timeLeft v <=? 1); [|reflexivity].
  destruct (awaits cl), eager; unfold andThen; next_simpl; reflexivity.
Qed.

(** ** What the page keeps *)

Lemma offered_In (v : Z) (options : list Z) :
  offered v options = true -> In v options.
Proof.
  unfold offered. intros Hv.
  apply existsb_exists in Hv as (o & Hin & Heq).
  apply Z.eqb_eq in Heq. subst o. exact Hin.
Qed.

Lemma studyOptions_bounds (v : Z) : In v studyOptions -> 15 <= v <= 60.
Proof. cbn. intuition lia. Qed.

Lemma breakOptions_bounds (v : Z) : In v breakOptions -> 5 <= v <= 15.
Proof. cbn. intuition lia. Qed.

Lemma longBreakOptions_bounds (v : Z) : In v longBreakOptions -> 15 <= v <= 30.
Proof. cbn. intuition lia. Qed.

Lemma secondsAfter_bounds (cl : State) :
  settingsOffered (settings cl) -> 300 <= secondsAfter cl <= 3600.
Proof.
  intros (Hs & Hb & Hl & _).
  apply studyOptions_bounds in Hs. apply breakOptions_bounds in Hb.
  apply longBreakOptions_bounds in Hl.
  unfold secondsAfter.
  destruct (currentSession cl); try lia.
  destruct (longBreakDue cl); lia.
Qed.

Lemma getCurrentSessionDuration_bounds (st : State) :
  settingsOffered (settings st) -> 5 <= getCurrentSessionDuration st <= 60.
Proof.
  intros (Hs & Hb & Hl & _).
  apply studyOptions_bounds in Hs. apply breakOptions_bounds in Hb.
  apply longBreakOptions_bounds in Hl.
  unfold getCurrentSessionDuration. destruct (currentSession st); lia.
Qed.

Ltac solve_side :=
  try assumption; try eassumption; try lia; try discriminate;
  try (intros; assumption); try (intros; discriminate);
  try (eexists; eassumption).

(** A press the page offers keeps the invariant of the render. *)
Lemma invariant_press (e : Event) (v : State) :
  invariant v -> isTick e = false -> enabled e v = true ->
  invariant (step e v).
Proof.
  intros Hinv Htick He. pose proof Hinv as (Hcfg & Ht & Hp & u & Hu).
  pose proof (getCurrentSessionDuration_bounds v Hcfg) as Hd.
  pose proof Hcfg as (Hs & Hb & Hl & Hk).
  destruct e; try discriminate; cbn in He;
    unfold invariant, settingsOffered; cbn.
  - repeat split; solve_side.
  - repeat split; solve_side.
  - repeat split; solve_side.
  - repeat split; solve_side.
  - repeat split; solve_side.
  - apply andb_true_iff in He as [_ Hv].
    apply (offered_In v0 studyOptions) in Hv. repeat split; solve_side.
  - apply andb_true_iff in He as [_ Hv].
    apply (offered_In v0 breakOptions) in Hv. repeat split; solve_side.
  - apply andb_true_iff in He as [_ Hv].
    apply (offered_In v0 longBreakOptions) in Hv. repeat split; solve_side.
Qed.

(** The render a firing leaves keeps it too. *)
Lemma invariant_fire (eager : bool) (w : World) (cl v : State) :
  invariant v -> settingsOffered (settings cl) ->
  invariant (next (fire eager w cl (mkPending v []))).
Proof.
  intros ((Hs & Hb & Hl & Hk) & Ht & Hp & u & Hu) Hcl.
  pose proof (secondsAfter_bounds cl Hcl) as Hsec.
  rewrite next_fire.
  destruct (Z.leb_spec (timeLeft v) 1) as [Hle|Hgt].
  - destruct (awaits cl); [|destruct eager];
      unfold invariant; cbn; repeat split; solve_side.
  - unfold invariant; cbn. repeat split; solve_side.
Qed.

Lemma invariant_afterAwait (w : World) (cl v : State) :
  invariant v -> settingsOffered (settings cl) ->
  invariant (next (afterAwait w cl (mkPending v []))).
Proof.
  intros ((Hs & Hb & Hl & Hk) & Ht & Hp & u & Hu) Hcl.
  pose proof (secondsAfter_bounds cl Hcl) as Hsec.
  rewrite next_afterAwait. unfold invariant; cbn.
  repeat split; solve_side.
Qed.

Lemma invariant_fetchAnswered (r : FetchResult) (v : State) :
  invariant v -> invariant (next (fetchAnswered r (mkPending v []))).
Proof.
  intros ((Hs & Hb & Hl & Hk) & Ht & Hp & u & Hu).
  rewrite next_fetchAnswered.
  unfold invariant; cbn. repeat split; solve_side.
Qed.

(** The interval effect keeps the interval in step with the flags. *)
Lemma reinstall_inStep (old new : State) (cl : option State) :
  intervalInStep cl old -> intervalInStep (reinstall old new cl) new.
Proof.
  unfold reinstall, intervalInStep.
  destruct (isRunning old), (isRunning new), (isPaused old), (isPaused new),
    cl; cbn; intros H; try reflexivity; try discriminate.
Qed.

Lemma reinstall_cases (old new : State) (cl : option State) (c : State) :
  reinstall old new cl = Some c -> cl = Some c \/ c = new.
Proof.
  unfold reinstall.
  destruct (_ && _); [left; assumption|].
  destruct (_ && _); [|discriminate].
  intros H. injection H as <-. right. reflexivity.
Qed.

Lemma pageInvariant_mounted (u : User) : pageInvariant (mountedPage u).
Proof.
  unfold pageInvariant, invariant, settingsOffered, intervalInStep. cbn.
  split; [|split; [reflexivity|]].
  - repeat split; solve_side; try tauto. exists u. reflexivity.
  - intros cl [H|[]]. discriminate.
Qed.

Lemma In_removeNth {A : Type} (x : A) (i : nat) (l : list A) :
  In x (removeNth i l) -> In x l.
Proof.
  revert i. induction l as [|y l IH]; intros [|i] H; cbn in *;
    try contradiction.
  - right. exact H.
  - destruct H as [H|H]; [left; exact H | right; apply (IH i); exact H].
Qed.

(** Every happening the page lets through keeps the invariant. *)
Lemma pageInvariant_pstep (h : Happening) (pg : Page) :
  pageInvariant pg -> penabled h pg = true -> pageInvariant (pstep h pg).
Proof.
  intros (Hinv & Hstep & Hcl) Hen.
  assert (Hkeep : forall (v : State) (waiting : list State) (k : nat),
            invariant v -> user v = user (view pg) ->
            (forall cl, In cl waiting ->
               settingsOffered (settings cl) /\ user cl = user (view pg)) ->
            pageInvariant
              (mkPage v (reinstall (view pg) v (interval pg)) waiting k)).
  { intros v waiting k Hv Hu Hw. unfold pageInvariant. cbn.
    split; [exact Hv|]. split; [apply reinstall_inStep; exact Hstep|].
    intros cl [Hc|Hc].
    - apply reinstall_cases in Hc as [Hc| ->].
      + rewrite Hu. apply Hcl. left. exact Hc.
      + destruct Hv as (Hcfg & _). split; [exact Hcfg | reflexivity].
    - rewrite Hu. apply Hw. exact Hc. }
  assert (Hwait : forall cl, In cl (awaiting pg) ->
            settingsOffered (settings cl) /\ user cl = user (view pg))
    by (intros cl Hin; apply Hcl; right; exact Hin).
  destruct h as [e|eager w|i w|r]; cbn in Hen.
  - apply andb_true_iff in Hen as [Htick He].
    apply negb_true_iff in Htick.
    pose proof (invariant_press e (view pg) Hinv Htick He) as Hinv'.
    pose proof (step_user e (view pg)) as Hu'.
    destruct e; try discriminate;
      (unfold pstep, happen, rendered; cbn [fst]; apply Hkeep;
       [exact Hinv' | exact Hu' | exact Hwait]).
  - unfold pstep, happen, rendered.
    destruct (interval pg) as [cl|] eqn:Hint; [|discriminate].
    cbn [fst]. destruct (Hcl cl (or_introl eq_refl)) as [Hcfg Hu].
    apply Hkeep.
    + apply invariant_fire; assumption.
    + rewrite next_fire.
      destruct (timeLeft (view pg) <=? 1); [destruct (awaits cl)|];
        reflexivity.
    + intros c Hin.
      destruct (snd (tickUpdater (timeLeft (view pg))) && awaits cl);
        [|apply Hwait; exact Hin].
      apply in_app_or in Hin as [Hin|[<-|[]]];
        [apply Hwait; exact Hin | split; assumption].
  - unfold pstep, happen, rendered.
    destruct (nth_error (awaiting pg) i) as [cl|] eqn:Hnth.
    + cbn [fst]. apply nth_error_In in Hnth.
      destruct (Hwait cl Hnth) as [Hcfg Hu].
      apply Hkeep.
      * apply invariant_afterAwait; assumption.
      * rewrite next_afterAwait. reflexivity.
      * intros c Hin. apply Hwait. apply (In_removeNth c i). exact Hin.
    + cbn [fst]. exact (conj Hinv (conj Hstep Hcl)).
  - unfold pstep, happen, rendered.
    destruct (fetching pg) as [|k]; [discriminate|].
    cbn [fst]. apply Hkeep.
    + apply invariant_fetchAnswered. exact Hinv.
    + rewrite next_fetchAnswered. reflexivity.
    + exact Hwait.
Qed.

Lemma preachable_pageInvariant (pg : Page) :
  preachable pg -> pageInvariant pg.
Proof.
  induction 1 as [u|h pg _ IH Hen].
  - apply pageInvariant_mounted.
  - apply pageInvariant_pstep; assumption.
Qed.

Lemma reachable_invariant (st : State) : reachable st -> invariant st.
Proof.
  intros (pg & Hpg & <-).
  destruct (preachable_pageInvariant pg Hpg) as [Hinv _]. exact Hinv.
Qed.

Lemma reachable_signed_in (st : State) :
  reachable st -> exists u, user st = Some u.
Proof.
  intros Hreach.
  destruct (reachable_invariant st Hreach) as (_ & _ & _ & Hu). exact Hu.
Qed.

(** ** The page when every answer arrives at once *)

Lemma preachable_prun (hs : list Happening) :
  forall pg, preachable pg -> padmissible hs pg = true ->
  preachable (prun hs pg).
Proof.
  induction hs as [|h hs IH]; intros pg Hpg Hadm; cbn in *.
  - exact Hpg.
  - apply andb_true_iff in Hadm as [Hen Hadm].
    apply IH; [apply preachable_step; assumption | exact Hadm].
Qed.

Lemma prun_app (hs1 hs2 : list Happening) :
  forall pg, prun (hs1 ++ hs2) pg = prun hs2 (prun hs1 pg).
Proof.
  induction hs1 as [|h hs1 IH]; intros pg; cbn; [reflexivity | apply IH].
Qed.

Lemma padmissible_app (hs1 hs2 : list Happening) :
  forall pg,
    padmissible hs1 pg = true -> padmissible hs2 (prun hs1 pg) = true ->
    padmissible (hs1 ++ hs2) pg = true.
Proof.
  induction hs1 as [|h hs1 IH]; intros pg H1 H2; cbn in *; [exact H2|].
  apply andb_true_iff in H1 as [Hen H1]. rewrite Hen. cbn.
  apply IH; assumption.
Qed.

(** What a closure that reads like the render makes of a completion. *)
Lemma readsAlike_after (cl v : State) :
  readsAlike cl v ->
  awaits cl = awaits v /\ secondsAfter cl = secondsAfter v /\
  phaseAfter cl = phaseAfter v /\
  countAfter cl (sessionCount v) = countAfter v (sessionCount v).
Proof.
  intros (Hu & Hc & Hn & _ & Hcfg).
  unfold awaits, secondsAfter, phaseAfter, countAfter, longBreakDue.
  rewrite Hu, Hc, Hn, Hcfg. repeat split.
Qed.

Lemma step_Tick_completing_view (w : World) (v : State) :
  timeLeft v <= 1 ->
  step (Tick w) v =
  mkState (user v) false false (secondsAfter v) (phaseAfter v)
    (countAfter v (sessionCount v)) (subject v) (settings v)
    (recentSessions v).
Proof.
  intros Hle. destruct (step_Tick_completing w v Hle) as [-> _].
  unfold commit. rewrite handleSessionComplete_parts.
  next_simpl. reflexivity.
Qed.

Lemma flags_of_inStep (c : State) (v : State) :
  intervalInStep (Some c) v -> isRunning v = true /\ isPaused v = false.
Proof.
  unfold intervalInStep. destruct (isRunning v), (isPaused v);
    cbn; intros H; try discriminate; split; reflexivity.
Qed.

Lemma pstep_Fire (eager : bool) (w : World) (v c : State)
  (aw : list State) (k : nat) :
  pstep (Fire eager w) (mkPage v (Some c) aw k) =
  mkPage (next (fire eager w c (mkPending v [])))
    (reinstall v (next (fire eager w c (mkPending v []))) (Some c))
    (if snd (tickUpdater (timeLeft v)) && awaits c then aw ++ [c] else aw)
    k.
Proof. reflexivity. Qed.

(** On a page with nothing pending, every event the render offers is
    matched by happenings the page lets through, with the insert answered
    at once, and the page has nothing pending afterwards. *)
Lemma settled_step (e : Event) (pg : Page) :
  settled pg -> enabled e (view pg) = true ->
  exists hs,
    padmissible hs pg = true /\ settled (prun hs pg) /\
    view (prun hs pg) = step e (view pg).
Proof.
  destruct pg as [v cl aw k]. intros (Haw & Hstep & Hreads) He.
  cbn [view interval awaiting] in *. subst aw.
  destruct (isTick e) eqn:Htick.
  - destruct e; try discriminate. cbn in He.
    destruct cl as [c|]; [|cbn in Hstep; rewrite Hstep in He; discriminate].
    destruct (flags_of_inStep c v Hstep) as [Hr Hp].
    destruct (readsAlike_after c v (Hreads c eq_refl))
      as (Haw & Hsec & Hph & Hcnt).
    destruct (Z.leb_spec (timeLeft v) 1) as [Hle|Hgt].
    + rewrite (step_Tick_completing_view w v Hle).
      destruct (awaits c) eqn:Hawaits.
      * assert (H1 : pstep (Fire false w) (mkPage v (Some c) [] k) =
                     mkPage
                       (mkState (user v) false false 0 (currentSession v)
                          (sessionCount v) (subject v) (settings v)
                          (recentSessions v))
                       None [c] k).
        { rewrite pstep_Fire, next_fire. unfold tickUpdater.
          destruct (Z.leb_spec (timeLeft v) 1) as [_|Hgt]; [|lia].
          rewrite Hawaits. cbn [snd andb app].
          unfold reinstall. cbn. rewrite Hr, Hp. reflexivity. }
        exists [Fire false w; InsertAnswered 0 w].
        cbn [prun padmissible]. rewrite H1.
        split; [reflexivity|].
        unfold pstep, happen, rendered.
        cbn [fst view interval awaiting fetching nth_error removeNth].
        next_simpl. rewrite Hsec, Hph, Hcnt.
        split; [|reflexivity].
        split; [reflexivity|]. split; [reflexivity|].
        intros c' H. discriminate.
      * assert (H1 : pstep (Fire false w) (mkPage v (Some c) [] k) =
                     mkPage
                       (mkState (user v) false false (secondsAfter v)
                          (phaseAfter v) (countAfter v (sessionCount v))
                          (subject v) (settings v) (recentSessions v))
                       None [] k).
        { rewrite pstep_Fire, next_fire. unfold tickUpdater.
          destruct (Z.leb_spec (timeLeft v) 1) as [_|Hgt]; [|lia].
          rewrite Hawaits, andb_false_r, Hsec, Hph, Hcnt.
          unfold reinstall. cbn. rewrite Hr, Hp. reflexivity. }
        exists [Fire false w]. cbn [prun padmissible]. rewrite H1.
        split; [reflexivity|]. split; [|reflexivity].
        split; [reflexivity|]. split; [reflexivity|].
        intros c' H. discriminate.
    + destruct (step_Tick_counting w v Hgt) as [-> _].
      assert (H1 : pstep (Fire false w) (mkPage v (Some c) [] k) =
                   mkPage
                     (mkState (user v) (isRunning v) (isPaused v)
                        (timeLeft v - 1) (currentSession v) (sessionCount v)
                        (subject v) (settings v) (recentSessions v))
                     (Some c) [] k).
      { rewrite pstep_Fire, next_fire. unfold tickUpdater.
        destruct (Z.leb_spec (timeLeft v) 1) as [Hle|_]; [lia|].
        cbn [snd andb].
        unfold reinstall. cbn. rewrite !Bool.eqb_reflx. reflexivity. }
      exists [Fire false w]. cbn [prun padmissible]. rewrite H1.
      split; [reflexivity|]. split; [|reflexivity].
      split; [reflexivity|]. split; [exact Hstep|].
      intros c' H. injection H as <-.
      destruct (Hreads c eq_refl) as (H2 & H3 & H4 & H5 & H6).
      repeat split; assumption.
  - exists [Press e].
    cbn [prun padmissible penabled view]. rewrite Htick, He. cbn [negb andb].
    split; [reflexivity|].
    assert (Hview : pstep (Press e) (mkPage v cl [] k) =
                    mkPage (step e v) (reinstall v (step e v) cl) [] k)
      by (destruct e; try discriminate; reflexivity).
    rewrite Hview. cbn [view interval awaiting].
    split; [|reflexivity].
    split; [reflexivity|].
    split; [apply reinstall_inStep; exact Hstep|].
    intros c' Hc'.
    destruct cl as [c|].
    + destruct (flags_of_inStep c v Hstep) as [Hr Hp].
      exfalso. revert Hc'. unfold reinstall.
      destruct e; try discriminate; cbn in He;
        rewrite ?Hr, ?andb_false_r in He;
        try discriminate; unfold step, commit; handler_simpl; cbn;
        do 3 (rewrite ?Hr, ?Hp; cbn); intros H; discriminate H.
    + apply reinstall_cases in Hc' as [Hc'| ->]; [discriminate|].
      repeat split.
Qed.

Lemma settled_run (es : list Event) :
  forall pg,
    settled pg -> admissible es (view pg) = true ->
    exists hs,
      padmissible hs pg = true /\ settled (prun hs pg) /\
      view (prun hs pg) = run es (view pg).
Proof.
  induction es as [|e es IH]; intros pg Hset Hadm; cbn [run admissible] in *.
  - exists []. split; [reflexivity|]. split; [exact Hset | reflexivity].
  - apply andb_true_iff in Hadm as [He Hadm].
    destruct (settled_step e pg Hset He) as (hs1 & Hadm1 & Hset1 & Hview1).
    rewrite <- Hview1 in Hadm.
    destruct (IH (prun hs1 pg) Hset1 Hadm) as (hs2 & Hadm2 & Hset2 & Hview2).
    exists (hs1 ++ hs2). rewrite prun_app.
    split; [apply padmissible_app; assumption|].
    split; [exact Hset2|].
    rewrite Hview2, Hview1. reflexivity.
Qed.

Lemma settled_mounted (u : User) : settled (mountedPage u).
Proof.
  split; [reflexivity|]. split; [reflexivity|].
  intros cl H. discriminate.
Qed.

(** Every run of events the render lets through from the mount is a run of
    the page. *)
Lemma reachable_run (es : list Event) (u : User) :
  admissible es (mounted u) = true -> reachable (run es (mounted u)).
Proof.
  intros Hadm.
  destruct (settled_run es (mountedPage u) (settled_mounted u) Hadm)
    as (hs & Hadm' & _ & Hview).
  exists (prun hs (mountedPage u)). split; [|exact Hview].
  apply preachable_prun; [constructor | exact Hadm'].
Qed.

Lemma firstBreak_reachable : reachable firstBreak.
Proof. apply reachable_run. vm_compute. reflexivity. Qed.

Lemma physicsLastSecond_reachable : reachable physicsLastSecond.
Proof. apply reachable_run. vm_compute. reflexivity. Qed.

Lemma pausedRun_reachable : reachable pausedRun.
Proof. apply reachable_run. reflexivity. Qed.

(** ** The countdown on the page *)

Lemma hastyStart_reachable : preachable hastyStart.
Proof.
  apply preachable_prun; [constructor | vm_compute; reflexivity].
Qed.


Lemma peffects_Fire (eager : bool) (w : World) (pg : Page) (cl : State) :
  interval pg = Some cl ->
  peffects (Fire eager w) pg = log (fire eager w cl (mkPending (view pg) [])) /\
  awaiting (pstep (Fire eager w) pg) =
    (if snd (tickUpdater (timeLeft (view pg))) && awaits cl
     then awaiting pg ++ [cl] else awaiting pg) /\
  view (pstep (Fire eager w) pg) =
    next (fire eager w cl (mkPending (view pg) [])) /\
  interval (pstep (Fire eager w) pg) =
    reinstall (view pg) (view (pstep (Fire eager w) pg)) (interval pg).
Proof.
  intros Hint. unfold peffects, pstep, happen, rendered. rewrite Hint.
  repeat split.
Qed.




(** ** A stale closure *)

(** C3: the phase after a break is claimed to be the study phase.  Start is
    pressed after the first study phase has completed and before the store
    has answered its insert.  The interval installed by that press holds
    the closure of a render still in the study phase with no session
    counted, and the writes that follow the answer do not install a new
    one.  The break of 300 seconds then runs to its end, and the page is
    in the break again, with one session counted. *)
Theorem hasty_Start_repeats_the_break :
  padmissible
    (startBeforeTheAnswer ++ InsertAnswered 0 quietWorld :: breakToItsEnd)
    (mountedPage alice) = true /\
  currentSession (view hastyStart) = study /\
  awaiting hastyStart = [view (pstep (Press Start) (mountedPage alice))] /\
  currentSession (view hastyBreak) = break /\
  isRunning (view hastyBreak) = true /\
  timeLeft (view hastyBreak) = 300 /\
  sessionCount (view hastyBreak) = 1 /\
  interval hastyBreak = Some (view hastyStart) /\
  currentSession (view (prun breakToItsEnd hastyBreak)) = break /\
  sessionCount (view (prun breakToItsEnd hastyBreak)) = 1 /\
  timeLeft (view (prun breakToItsEnd hastyBreak)) = 300.
Proof. vm_compute. repeat split. Qed.

(** C5: the completion of a break is claimed to insert no record.  On the
    page of the hasty Start the tick that ends the break runs the
    [handleSessionComplete] of a render in the study phase: a second row
    goes to the store, for a break, while the counter stays at one
    session. *)
Theorem break_completion_with_a_stale_closure_inserts :
  currentSession (view hastyBreak) = break /\
  inserts (ptrace startBeforeTheAnswer (mountedPage alice)) =
    [mkSessionData 25 "study" None "alice"] /\
  inserts (ptrace (repeat (Fire false quietWorld) 300) hastyBreak) =
    [mkSessionData 25 "study" None "alice"] /\
  sessionCount (view (prun breakToItsEnd hastyBreak)) = 1.
Proof. vm_compute. repeat split. Qed.

(** At the level of the handler the claim holds: one run of
    [handleSessionComplete] sends exactly one insert when the render it
    closes over is in the study phase with a user signed in, none when it
    is in a break. *)
Lemma handleSessionComplete_inserts_for_its_own_phase
  (w : World) (st : State) :
  reachable st ->
  exists u, user st = Some u /\
  inserts (effects (handleSessionComplete w) st) =
    match currentSession st with
    | study =>
        [mkSessionData (studyDuration (settings st)) "study"
           (if String.eqb (subject st) "" then None else Some (subject st))
           (id u)]
    | _ => []
    end.
Proof.
  intros Hreach. destruct (reachable_signed_in st Hreach) as [u Hu].
  exists u. split; [exact Hu|].
  rewrite inserts_handleSessionComplete, Hu, orUndefined_spec.
  destruct (currentSession st); reflexivity.
Qed.

(** ** Settings and countdown bounds *)

(** X1: whatever the user does, the three durations of the settings are
    values the selects offer, and [sessionsUntilLongBreak] stays 4: no
    control of the page writes it. *)
Theorem settings_stay_among_the_options (st : State) :
  reachable st ->
  In (studyDuration (settings st)) studyOptions /\
  In (breakDuration (settings st)) breakOptions /\
  In (longBreakDuration (settings st)) longBreakOptions /\
  sessionsUntilLongBreak (settings st) = 4.
Proof.
  intros Hreach.
  destruct (reachable_invariant st Hreach) as (Hcfg & _). exact Hcfg.
Qed.

Lemma settings_stay_among_the_options_witness :
  sessionsUntilLongBreak (settings firstBreak) = 4.
Proof.
  apply (settings_stay_among_the_options firstBreak firstBreak_reachable).
Defined.

Lemma timeLeft_bounds_of_reachable (st : State) :
  reachable st -> 0 <= timeLeft st <= 3600.
Proof.
  intros Hreach.
  destruct (reachable_invariant st Hreach) as (_ & Ht & _). exact Ht.
Qed.

(** X2: the countdown of the mounted page is never negative and never more
    than one hour. *)
Theorem timeLeft_within_the_hour (st : State) :
  reachable st -> 0 <= timeLeft st <= 3600.
Proof. apply timeLeft_bounds_of_reachable. Qed.

Lemma timeLeft_within_the_hour_witness :
  0 <= timeLeft (view hastyStart) <= 3600.
Proof.
  apply timeLeft_within_the_hour.
  exists hastyStart. split; [exact hastyStart_reachable | reflexivity].
Defined.

(** X3: the page is never paused without running. *)
Theorem paused_only_while_running (st : State) :
  reachable st -> isPaused st = true -> isRunning st = true.
Proof.
  intros Hreach.
  destruct (reachable_invariant st Hreach) as (_ & _ & Hp & _). exact Hp.
Qed.

Lemma paused_only_while_running_witness : isRunning pausedRun = true.
Proof.
  apply paused_only_while_running; [exact pausedRun_reachable|reflexivity].
Defined.

(** ** What each happening leaves alone *)

Lemma inserts_app (l1 l2 : list Effect) :
  inserts (l1 ++ l2) = inserts l1 ++ inserts l2.
Proof.
  induction l1 as [|e l1 IH]; cbn; [reflexivity|].
  destruct e; cbn; rewrite IH; reflexivity.
Qed.

Lemma inserts_afterAwait (w : World) (cl : State) (p : Pending) :
  inserts (log (afterAwait w cl p)) = inserts (log p).
Proof.
  handler_simpl.
  destruct (currentSession cl), (user cl) as [u|]; cbn;
    repeat match goal with
      | |- context [match ?x with _ => _ end] => destruct x; cbn
      end;
    rewrite ?inserts_app; cbn; rewrite ?app_nil_r; reflexivity.
Qed.

Lemma inserts_fire (eager : bool) (w : World) (cl v : State) :
  inserts (log (fire eager w cl (mkPending v []))) =
  if timeLeft v <=? 1
  then match currentSession cl, user cl with
       | study, Some u =>
           [mkSessionData (studyDuration (settings cl)) "study"
              (orUndefined (subject cl)) (id u)]
       | _, _ => []
       end
  else [].
Proof.
  unfold fire, tickUpdater. cbn [next].
  destruct (timeLeft v <=? 1); [|reflexivity].
  unfold awaits. handler_simpl.
  destruct (currentSession cl), (user cl) as [u|], eager; cbn;
    repeat match goal with
      | |- context [match ?x with _ => _ end] => destruct x; cbn
      end; reflexivity.
Qed.

(** X7: on the page a row is sent to the store only by a firing of the
    interval with one second or less on the countdown whose closure is in
    the study phase.  No press on a control and no answer of the store
    sends one: a study phase given up with Stop or Reset is not
    recorded. *)
Theorem insert_only_by_a_completing_firing (h : Happening) (pg : Page) :
  inserts (peffects h pg) <> [] ->
  exists eager w cl,
    h = Fire eager w /\ interval pg = Some cl /\
    timeLeft (view pg) <= 1 /\ currentSession cl = study.
Proof.
  intros Hins. destruct h as [e|eager w|i w|r].
  - exfalso. apply Hins. destruct e; reflexivity.
  - destruct (interval pg) as [cl|] eqn:Hint.
    + exists eager, w, cl. split; [reflexivity|]. split; [reflexivity|].
      destruct (peffects_Fire eager w pg cl Hint) as (Heff & _).
      rewrite Heff, inserts_fire in Hins.
      destruct (Z.leb_spec (timeLeft (view pg)) 1) as [Hle|Hgt];
        [|congruence].
      split; [exact Hle|].
      destruct (currentSession cl); [reflexivity | |]; congruence.
    + exfalso. apply Hins. unfold peffects, happen. rewrite Hint.
      reflexivity.
  - exfalso. apply Hins. unfold peffects, happen, rendered.
    destruct (nth_error (awaiting pg) i) as [cl|]; [|reflexivity].
    cbn [snd]. rewrite inserts_afterAwait. reflexivity.
  - exfalso. apply Hins. unfold peffects, happen, rendered.
    destruct (fetching pg) as [|k]; [reflexivity|].
    cbn [snd]. destruct r as [[rows|]|e]; reflexivity.
Qed.

Lemma insert_only_by_a_completing_firing_witness :
  exists eager w cl,
    Fire false quietWorld = Fire eager w /\
    interval hastyStart = Some cl /\
    timeLeft (view hastyStart) <= 1 /\ currentSession cl = study.
Proof.
  apply (insert_only_by_a_completing_firing
           (Fire false quietWorld) hastyStart).
  vm_compute. discriminate.
Defined.

(** X8: the list of recent sessions changes only when the store answers a
    select with rows; a failed select, an answered insert, a firing or a
    press leaves the list as it was. *)
Theorem recentSessions_change_only_with_an_answered_select
  (h : Happening) (pg : Page) :
  recentSessions (view (pstep h pg)) <> recentSessions (view pg) ->
  exists data, h = FetchAnswered (FetchOk data) /\ (0 < fetching pg)%nat.
Proof.
  intros Hchange. destruct h as [e|eager w|i w|r].
  - exfalso. apply Hchange. destruct e; reflexivity.
  - exfalso. apply Hchange. unfold pstep, happen, rendered.
    destruct (interval pg) as [cl|]; [|reflexivity].
    cbn [fst view]. rewrite next_fire.
    destruct (timeLeft (view pg) <=? 1); [destruct (awaits cl)|];
      reflexivity.
  - exfalso. apply Hchange. unfold pstep, happen, rendered.
    destruct (nth_error (awaiting pg) i) as [cl|]; [|reflexivity].
    cbn [fst view]. rewrite next_afterAwait. reflexivity.
  - revert Hchange. unfold pstep, happen, rendered.
    destruct (fetching pg) as [|k];
      [intros H; exfalso; apply H; reflexivity|].
    cbn [fst view]. rewrite next_fetchAnswered. cbn [recentSessions].
    destruct r as [data|e];
      [|intros H; exfalso; apply H; reflexivity].
    intros _. exists data. split; [reflexivity | lia].
Qed.

Lemma recentSessions_change_only_with_an_answered_select_witness :
  exists data,
    FetchAnswered
      (FetchOk (Some [mkSessionRow "1" None "2025-08-09" 25])) =
    FetchAnswered (FetchOk data) /\
    (0 < fetching (mountedPage alice))%nat.
Proof.
  apply (recentSessions_change_only_with_an_answered_select
           (FetchAnswered
              (FetchOk (Some [mkSessionRow "1" None "2025-08-09" 25])))
           (mountedPage alice)).
  vm_compute. discriminate.
Defined.

(** ** The countdown and the badge, on the page *)


(** X14: whatever the user does, the countdown on the page reads as five
    characters, minutes from 00 to 60 and seconds from 00 to 59. *)
Theorem displayed_countdown_is_well_formed (st : State) :
  reachable st ->
  exists m s : Z,
    0 <= m <= 60 /\ 0 <= s < 60 /\ timeLeft st = 60 * m + s /\
    formatTime (timeLeft st) =
    String (digit (m / 10))
      (String (digit (m mod 10))
         (String ":"
            (String (digit (s / 10))
               (String (digit (s mod 10)) EmptyString)))).
Proof.
  intros Hreach.
  pose proof (timeLeft_bounds_of_reachable st Hreach) as Ht.
  exists (timeLeft st / 60), (timeLeft st mod 60).
  split; [div_lia|]. split; [div_lia|]. split; [div_lia|].
  rewrite formatTime_prints_minutes_and_seconds by div_lia.
  replace (timeLeft st / 600) with (timeLeft st / 60 / 10) by div_lia.
  replace (timeLeft st mod 10) with (timeLeft st mod 60 mod 10) by div_lia.
  reflexivity.
Qed.

Lemma displayed_countdown_is_well_formed_witness :
  exists m s : Z,
    0 <= m <= 60 /\ 0 <= s < 60 /\ timeLeft physicsLastSecond = 60 * m + s /\
    formatTime (timeLeft physicsLastSecond) =
    String (digit (m / 10))
      (String (digit (m mod 10))
         (String ":"
            (String (digit (s / 10))
               (String (digit (s mod 10)) EmptyString)))).
Proof.
  apply (displayed_countdown_is_well_formed physicsLastSecond
           physicsLastSecond_reachable).
Defined.

(** ** The badge of a stored session *)

(** X15: every session the timer sends to the store carries one of the
    study durations the select offers, so its badge in the list of recent
    sessions reads 15m, 25m, 30m, 45m or, for sixty minutes, 1h 0m. *)
Theorem stored_sessions_have_an_offered_duration
  (w : World) (st : State) (row : SessionData) :
  reachable st -> In row (inserts (effects (handleTick w) st)) ->
  In (sd_duration row) studyOptions /\
  In (formatDuration (sd_duration row))
     ["15m"; "25m"; "30m"; "45m"; "1h 0m"]%string.
Proof.
  intros Hreach Hrow.
  destruct (reachable_invariant st Hreach) as ((Hs & _) & _).
  assert (Hd : sd_duration row = studyDuration (settings st)).
  { destruct (Z.leb_spec (timeLeft st) 1) as [Hle|Hgt].
    - destruct (step_Tick_completing w st Hle) as [_ Heff].
      rewrite Heff, inserts_handleSessionComplete in Hrow.
      destruct (currentSession st), (user st) as [u|]; cbn in Hrow;
        try contradiction.
      destruct Hrow as [<-|[]]. reflexivity.
    - destruct (step_Tick_counting w st Hgt) as [_ Heff].
      rewrite Heff in Hrow. cbn in Hrow. contradiction. }
  rewrite Hd. split; [exact Hs|].
  cbn in Hs.
  destruct Hs as [<-|[<-|[<-|[<-|[<-|[]]]]]]; vm_compute; tauto.
Qed.

Lemma stored_sessions_have_an_offered_duration_witness :
  In (formatDuration 25) ["15m"; "25m"; "30m"; "45m"; "1h 0m"]%string.
Proof.
  apply (stored_sessions_have_an_offered_duration quietWorld
           physicsLastSecond
           (mkSessionData 25 "study" (Some "Physics"%string) "alice")
           physicsLastSecond_reachable).
  vm_compute. left. reflexivity.
Defined.

